(** * SEO data API (app.py): model and properties

    A shallow embedding of [app.py]: the domain normaliser
    [normalize_domain], the extractor [get_seo_data] with its nested helper
    [extract_metric], and the Flask route [fetch_seo_data].

    Conventions.
    - A Python [str] is a [string]; one [ascii] stands for one code point
      below 256.
    - A Python exception is a value of [exn]; code that can raise returns a
      [result].
    - A Python [dict] written as a literal is a [JObj] holding its items in
      the order of the literal.
    - The tree built by [BeautifulSoup(response.text, "html.parser")] is a
      list of [node]s; the operations of bs4 the program calls ([find],
      [find_all], [find_next], [find_next_sibling], [.string], [.text],
      [tag[key]]) are defined on it in [Module Bs4].
    - The part of [urllib.parse.urlparse] that decides [.netloc] is in
      [Module UrlParse], after [urllib/parse.py] of CPython 3.11.
    - [Bs4.string_of] and the lookups built on it take [.string] as
      total. bs4 computes it by one nested Python call per only child, so
      on a [p] or [h3] that heads a chain of only children longer than the
      interpreter's stack has room for it raises [RecursionError].
      [Module Limited] gives [get_seo_data] and the route with that limit;
      the two agree on every page within the limit
      ([limited_get_seo_data_agrees]). *)

From Stdlib Require Import String Ascii List ZArith Lia Bool Arith DecimalString.
Import ListNotations.
Set Warnings "-register-all".
Open Scope list_scope.
Open Scope string_scope.

(** ** Python strings *)

Module PyStr.

(** The characters of a string, in order. *)
Definition chars (s : string) : list ascii := list_ascii_of_string s.

(** [c in s] for a one-character [c]. *)
Definition contains (c : ascii) (s : string) : bool :=
  existsb (Ascii.eqb c) (chars s).

(** [str.isspace] on one code point below 256: TAB, LF, VT, FF, CR,
    FS, GS, RS, US, SPACE, NEL (0x85) and NBSP (0xA0). *)
Definition isspace (c : ascii) : bool :=
  let n := nat_of_ascii c in
  (((9 <=? n) && (n <=? 13)) || ((28 <=? n) && (n <=? 32))
   || (n =? 133) || (n =? 160))%nat.

(** [s.lstrip(set)]: drop the leading characters that satisfy [p]. *)
Fixpoint lstrip_with (p : ascii -> bool) (s : string) : string :=
  match s with
  | String c s' => if p c then lstrip_with p s' else s
  | EmptyString => EmptyString
  end.

(** [s.rstrip(set)]: drop the trailing characters that satisfy [p]. *)
Fixpoint rstrip_with (p : ascii -> bool) (s : string) : string :=
  match s with
  | String c s' =>
      match rstrip_with p s' with
      | EmptyString => if p c then EmptyString else String c EmptyString
      | r => String c r
      end
  | EmptyString => EmptyString
  end.

(** [s.strip()] *)
Definition strip (s : string) : string :=
  rstrip_with isspace (lstrip_with isspace s).

(** [s.replace(c, "")] for a one-character [c]. *)
Fixpoint remove_char (c : ascii) (s : string) : string :=
  match s with
  | String d s' =>
      if Ascii.eqb c d then remove_char c s' else String d (remove_char c s')
  | EmptyString => EmptyString
  end.

(** [s[n:]] for [n >= 0]. *)
Definition slice_from (n : nat) (s : string) : string :=
  substring n (String.length s - n) s.

(** [s[:n]] for [n >= 0]. *)
Definition slice_to (n : nat) (s : string) : string :=
  substring 0 n s.

(** [s[a:b]] for [0 <= a <= b]. *)
Definition slice (a b : nat) (s : string) : string :=
  substring a (b - a) s.

(** [s.find(t, start)]; [None] is Python's -1. *)
Definition find (t : string) (start : nat) (s : string) : option nat :=
  index start t s.

(** [s.startswith(t)] *)
Definition startswith (t s : string) : bool := prefix t s.

(** [s.isascii()] *)
Definition isascii (s : string) : bool :=
  forallb (fun c => (nat_of_ascii c <? 128)%nat) (chars s).

(** [sep.join(l)] *)
Fixpoint join (sep : string) (l : list string) : string :=
  match l with
  | [] => ""
  | [x] => x
  | x :: rest => x ++ sep ++ join sep rest
  end.

(** [str(n)] for an [int]. *)
Definition of_int (n : Z) : string := NilZero.string_of_int (Z.to_int n).

End PyStr.

(** ** Exceptions *)

(** The classes the program tells apart or raises. [RequestException] is
    what the first [except] clause of [get_seo_data] catches. *)
Inductive exn_class :=
| RequestException
| KeyError
| ValueError
| AttributeError
| OtherException.

(** An exception: its class and [str(e)]. *)
Record exn := mkExn { exn_type : exn_class; exn_str : string }.

Inductive result (A : Type) : Type :=
| Ok (a : A)
| Raise (e : exn).
Arguments Ok {A} a.
Arguments Raise {A} e.

Definition bind {A B : Type} (c : result A) (k : A -> result B) : result B :=
  match c with
  | Ok a => k a
  | Raise e => Raise e
  end.

Notation "x <- c ;; k" := (bind c (fun x => k))
  (at level 61, c at next level, right associativity).

(** [str(KeyError(key))] is [repr(key)]: the key between single quotes,
    for a key with no quote, backslash or control character. *)
Definition key_error (key : string) : exn :=
  mkExn KeyError ("'" ++ key ++ "'").

Definition value_error (msg : string) : exn := mkExn ValueError msg.

(** ** urllib.parse.urlparse(url).netloc *)

Module UrlParse.
Import PyStr.

Definition scheme_chars : string :=
  "abcdefghijklmnopqrstuvwxyzABCDEFGHIJKLMNOPQRSTUVWXYZ0123456789+-.".

(** [_WHATWG_C0_CONTROL_OR_SPACE]: code points 0 to 32. *)
Definition c0_control_or_space (c : ascii) : bool :=
  (nat_of_ascii c <=? 32)%nat.

(** [_UNSAFE_URL_BYTES_TO_REMOVE = ['\t', '\r', '\n']] *)
Definition unsafe_url_bytes_to_remove : list ascii :=
  [ascii_of_nat 9; ascii_of_nat 13; ascii_of_nat 10].

(** [c.isascii() and c.isalpha()] *)
Definition isascii_alpha (c : ascii) : bool :=
  let n := nat_of_ascii c in
  (((65 <=? n) && (n <=? 90)) || ((97 <=? n) && (n <=? 122)))%nat.

(** [_splitnetloc(url, start)]: the earliest of the delimiters / ? #
    at or after [start] ends the network location. *)
Definition _splitnetloc (url : string) (start : nat) : string * string :=
  let delim :=
    fold_left
      (fun delim c =>
         match find c start url with
         | Some wdelim => Nat.min delim wdelim
         | None => delim
         end)
      ["/"; "?"; "#"] (String.length url) in
  (slice start delim url, slice_from delim url).

Section Validation.

(** Two checks of [urlsplit] rest on library code that is not
    embedded, and are taken as parameters.
    - [check_bracketed_netloc netloc] is [_check_bracketed_netloc]
      (with [ipaddress.ip_address] behind it): [Some msg] when it
      raises [ValueError(msg)], [None] when it returns. Python
      versions without this check are the instance [fun _ => None].
    - [nfkc_adds_delimiter n] tells whether
      [unicodedata.normalize('NFKC', n)] differs from [n] and holds one
      of the characters / ? # @ : . *)
Variable check_bracketed_netloc : string -> option string.
Variable nfkc_adds_delimiter : string -> bool.

(** [_checknetloc(netloc)] *)
Definition _checknetloc (netloc : string) : result unit :=
  if (netloc =? "") || isascii netloc then Ok tt
  else
    let n := remove_char "@" netloc in
    let n := remove_char ":" n in
    let n := remove_char "#" n in
    let n := remove_char "?" n in
    if nfkc_adds_delimiter n
    then Raise (value_error
                  ("netloc '" ++ netloc ++
                   "' contains invalid characters under NFKC normalization"))
    else Ok tt.

(** [urlsplit(url).netloc], which is also [urlparse(url).netloc]:
    [urlparse] only splits the parameters off the path afterwards.
    The scheme, path, query and fragment are not computed. *)
Definition urlsplit_netloc (url : string) : result string :=
  let url := lstrip_with c0_control_or_space url in
  let url := fold_left (fun u b => remove_char b u)
                       unsafe_url_bytes_to_remove url in
  let url :=
    match find ":" 0 url, url with
    | Some (S i'), String c0 _ =>
        let i := S i' in
        if isascii_alpha c0
           && forallb (fun c => contains c scheme_chars)
                      (chars (slice_to i url))
        then slice_from (i + 1) url
        else url
    | _, _ => url
    end in
  netloc <-
    (if slice_to 2 url =? "//" then
       let netloc := fst (_splitnetloc url 2) in
       if (contains "[" netloc && negb (contains "]" netloc))
          || (contains "]" netloc && negb (contains "[" netloc))
       then Raise (value_error "Invalid IPv6 URL")
       else if contains "[" netloc && contains "]" netloc
       then match check_bracketed_netloc netloc with
            | Some msg => Raise (value_error msg)
            | None => Ok netloc
            end
       else Ok netloc
     else Ok "") ;;
  _ <- _checknetloc netloc ;;
  Ok netloc.

End Validation.

End UrlParse.

(** ** normalize_domain (app.py, lines 12-20) *)

Section Normalizer.

Variable check_bracketed_netloc : string -> option string.
Variable nfkc_adds_delimiter : string -> bool.

Definition normalize_domain (url : string) : result string :=
  let url :=
    if negb (PyStr.startswith "http://" url || PyStr.startswith "https://" url)
    then "https://" ++ url
    else url in
  domain <- UrlParse.urlsplit_netloc
              check_bracketed_netloc nfkc_adds_delimiter url ;;
  let domain :=
    if PyStr.startswith "www." domain then PyStr.slice_from 4 domain
    else domain in
  Ok domain.

End Normalizer.

(** ** BeautifulSoup trees and the bs4 operations the program calls *)

Module Bs4.
Import PyStr.

(** An attribute value: a [str], or a list of [str] for the attributes
    bs4 treats as multi-valued ([class], [rel], ...). *)
Inductive attr_value :=
| AStr (s : string)
| AList (l : list string).

(** A page element: a [NavigableString] (or [CData]); a string of a
    class that [.text] leaves out ([Comment], [Doctype], [Declaration],
    [ProcessingInstruction]); or a [Tag] with its name, its [attrs] dict
    and its [contents]. *)
Inductive node :=
| NavigableString (s : string)
| Comment (s : string)
| Tag (name : string) (attrs : list (string * attr_value))
      (contents : list node).

(** [attrs.get(key)] *)
Fixpoint attrs_get (key : string) (attrs : list (string * attr_value))
  : option attr_value :=
  match attrs with
  | [] => None
  | (k, v) :: rest => if k =? key then Some v else attrs_get key rest
  end.

(** Document order. [walk n sibs] lists [n] and then everything below
    it, each element paired with the siblings that follow it under its
    parent; [sibs] are the siblings that follow [n]. *)
Fixpoint walk (n : node) (sibs : list node) : list (node * list node) :=
  (n, sibs) ::
  match n with
  | NavigableString _ | Comment _ => []
  | Tag _ _ contents =>
      (fix walk_contents (l : list node) : list (node * list node) :=
         match l with
         | [] => []
         | c :: rest => walk c rest ++ walk_contents rest
         end)%list contents
  end.

Fixpoint walk_all (l : list node) : list (node * list node) :=
  match l with
  | [] => []
  | c :: rest => (walk c rest ++ walk_all rest)%list
  end.

(** [.contents] *)
Definition contents_of (n : node) : list node :=
  match n with
  | NavigableString _ | Comment _ => []
  | Tag _ _ contents => contents
  end.

(** [.descendants] *)
Definition descendants (n : node) : list node :=
  map fst (walk_all (contents_of n)).

(** A tag called [name]. *)
Definition is_tag (name : string) (n : node) : bool :=
  match n with
  | NavigableString _ | Comment _ => false
  | Tag nm _ _ => nm =? name
  end.

(** [.string]: the single string below a tag, through any chain of
    only children, whatever its class; [None] when some element on the
    way has no child or several. *)
Fixpoint string_of (n : node) : option string :=
  match n with
  | NavigableString s | Comment s => Some s
  | Tag _ _ [c] => string_of c
  | Tag _ _ _ => None
  end.

(** [.text]: every string below the element, concatenated. *)
Fixpoint text (n : node) : string :=
  match n with
  | NavigableString s => s
  | Comment _ => ""
  | Tag _ _ contents => String.concat "" (map text contents)
  end.

(** The test of [find(name, string=s)], for a non-empty [s]: the name
    matches and [.string] equals [s]. *)
Definition has_string (s : string) (n : node) : bool :=
  match string_of n with
  | Some t => t =? s
  | None => false
  end.

(** The test of [find(name, class_=v)]: some value of the [class]
    attribute equals [v], or the values joined by spaces do. *)
Definition has_class (v : string) (n : node) : bool :=
  match n with
  | NavigableString _ | Comment _ => false
  | Tag _ attrs _ =>
      match attrs_get "class" attrs with
      | None => false
      | Some (AStr s) => s =? v
      | Some (AList l) => existsb (String.eqb v) l || (join " " l =? v)
      end
  end.

(** A tag found in a tree, with what the program reaches from it:
    [next_siblings] and [next_elements]. *)
Record located := mkLocated {
  tag : node;
  next_siblings : list node;
  next_elements : list node
}.

Fixpoint locate (p : node -> bool) (order : list (node * list node))
  : option located :=
  match order with
  | [] => None
  | (n, sibs) :: rest =>
      if p n then Some (mkLocated n sibs (map fst rest))
      else locate p rest
  end.

(** [soup.find(name, string=s)] *)
Definition soup_find_string (soup : list node) (name s : string)
  : option located :=
  locate (fun n => is_tag name n && has_string s n) (walk_all soup).

(** [soup.find(name, class_=v)] *)
Definition soup_find_class (soup : list node) (name v : string)
  : option located :=
  locate (fun n => is_tag name n && has_class v n) (walk_all soup).

(** [t.find_next_sibling(name)] *)
Definition find_next_sibling (t : located) (name : string) : option node :=
  List.find (is_tag name) (next_siblings t).

(** [t.find_next(name)] *)
Definition find_next (t : located) (name : string) : option node :=
  List.find (is_tag name) (next_elements t).

(** [t.find_all(name)] *)
Definition find_all (t : node) (name : string) : list node :=
  filter (is_tag name) (descendants t).

(** [t.find(name)]: the first result of [find_all], if any. *)
Definition find (t : node) (name : string) : option node :=
  hd_error (find_all t name).

(** [t[key]]. The program applies it to results of [find] and
    [find_all], which are tags; on a string Python raises [TypeError]. *)
Definition getitem (t : node) (key : string) : result attr_value :=
  match t with
  | NavigableString _ | Comment _ =>
      Raise (mkExn OtherException "string indices must be integers, not 'str'")
  | Tag _ attrs _ =>
      match attrs_get key attrs with
      | Some v => Ok v
      | None => Raise (key_error key)
      end
  end.

(** [v.strip()] on an attribute value. *)
Definition strip_value (v : attr_value) : result string :=
  match v with
  | AStr s => Ok (strip s)
  | AList _ =>
      Raise (mkExn AttributeError "'list' object has no attribute 'strip'")
  end.

End Bs4.

(** ** Payloads *)

(** The values the program builds and hands to [jsonify]: [str], [list]
    and [dict]. *)
Inductive json :=
| JStr (s : string)
| JList (l : list json)
| JDict (items : list (string * json)).

(** [d.keys()] *)
Definition keys (d : json) : list string :=
  match d with
  | JDict items => map fst items
  | _ => []
  end.

(** [key in d] *)
Definition has_key (key : string) (d : json) : bool :=
  existsb (String.eqb key) (keys d).

(** [d[key]]; [None] when the key is absent. *)
Definition field (key : string) (d : json) : option json :=
  match d with
  | JDict items =>
      match List.find (fun kv => fst kv =? key) items with
      | Some kv => Some (snd kv)
      | None => None
      end
  | _ => None
  end.

(** ** get_seo_data (app.py, lines 22-176) *)

Import Bs4.

(** What [requests.get] returns as far as the program reads it:
    [status_code], and [response.text] as the tree
    [BeautifulSoup(response.text, "html.parser")] makes of it. *)
Record response := mkResponse {
  status_code : Z;
  soup : list node
}.

(** [extract_metric] (lines 45-52), nested in [get_seo_data]; [soup] is the
    variable it closes over. *)
Definition extract_metric (soup : list node) (metric_name : string) : string :=
  match soup_find_string soup "p" metric_name with
  | Some metric_section =>
      match find_next_sibling metric_section "p" with
      | Some value_tag =>
          match find value_tag "a" with
          | Some a => PyStr.strip (text a)
          | None => "Not Found"
          end
      | None => "Not Found"
      end
  | None => "Not Found"
  end.

(** The body of the loop of lines 72-84 from [cols] on: [None] when the
    row is skipped, the dict that is appended otherwise. [cols[0]],
    [cols[1]] and [cols[2]] are read under [len(cols) >= 4]. *)
Definition backlink_of_cols (cols : list node) : result (option json) :=
  match cols with
  | c0 :: c1 :: c2 :: _ :: _ =>
      source_url <-
        match find c0 "a" with
        | Some a => v <- getitem a "href" ;; strip_value v
        | None => Ok "N/A"
        end ;;
      target_url <-
        match find_all c0 "a" with
        | a :: more => v <- getitem (last more a) "href" ;; strip_value v
        | [] => Ok "N/A"
        end ;;
      let anchor_text := PyStr.strip (text c1) in
      let follow_type := PyStr.strip (text c2) in
      Ok (Some (JDict [("source_url", JStr source_url);
                       ("target_url", JStr target_url);
                       ("anchor_text", JStr anchor_text);
                       ("follow_type", JStr follow_type)]))
  | _ => Ok None
  end.

(** One turn of the loop: [cols = row.find_all("td")], then the body. *)
Definition backlink_of_row (row : node) : result (option json) :=
  backlink_of_cols (find_all row "td").

(** The loop of lines 72-84 over [rows], appending to [backlinks]. *)
Fixpoint backlinks_loop (rows : list node) (backlinks : list json)
  : result (list json) :=
  match rows with
  | [] => Ok backlinks
  | row :: rows' =>
      r <- backlink_of_row row ;;
      backlinks_loop rows'
        (match r with
         | Some d => (backlinks ++ [d])%list
         | None => backlinks
         end)
  end.

(** Lines 65-84. *)
Definition extract_backlinks (soup : list node) : result (list json) :=
  match soup_find_string soup "h3" "Backlinks" with
  | Some backlinks_section =>
      match find_next backlinks_section "table" with
      | Some backlinks_table =>
          backlinks_loop (tl (find_all backlinks_table "tr")) []
      | None => Ok []
      end
  | None => Ok []
  end.

(** One turn of the loop of lines 93-103. *)
Definition page_of_row (row : node) : option json :=
  match find_all row "td" with
  | c0 :: c1 :: c2 :: _ =>
      let page_url :=
        match find c0 "a" with
        | Some a => PyStr.strip (text a)
        | None => PyStr.strip (text c0)
        end in
      let traffic_percentage := PyStr.strip (text c1) in
      let keywords := PyStr.strip (text c2) in
      Some (JDict [("page_url", JStr page_url);
                   ("traffic_percentage", JStr traffic_percentage);
                   ("keywords", JStr keywords)])
  | _ => None
  end.

(** Lines 86-103. *)
Definition extract_top_pages (soup : list node) : list json :=
  match soup_find_string soup "h3" "Top Pages" with
  | Some top_pages_section =>
      match find_next top_pages_section "table" with
      | Some top_pages_table =>
          flat_map (fun row => match page_of_row row with
                               | Some d => [d]
                               | None => []
                               end)
                   (tl (find_all top_pages_table "tr"))
      | None => []
      end
  | None => []
  end.

(** The loop of lines 112-122. Its body assigns the local variable
    [domain] (line 115), which is also the parameter of [get_seo_data]:
    the loop carries [domain] along with the list [competitors]. *)
Fixpoint competitors_loop (rows : list node) (domain : string)
  (competitors : list json) : string * list json :=
  match rows with
  | [] => (domain, competitors)
  | row :: rows' =>
      match find_all row "td" with
      | c0 :: c1 :: c2 :: _ =>
          let domain := PyStr.strip (text c0) in
          let com_keywords := PyStr.strip (text c1) in
          let com_level := PyStr.strip (text c2) in
          competitors_loop rows' domain
            (competitors ++ [JDict [("domain", JStr domain);
                                    ("common_keywords", JStr com_keywords);
                                    ("competition_level", JStr com_level)]])%list
      | _ => competitors_loop rows' domain competitors
      end
  end.

(** Lines 105-122: the value of [domain] and of [competitors] after
    them. *)
Definition extract_competitors (soup : list node) (domain : string)
  : string * list json :=
  match soup_find_string soup "h3" "Main Organic Competitors" with
  | Some competitors_section =>
      match find_next competitors_section "table" with
      | Some competitors_table =>
          competitors_loop (tl (find_all competitors_table "tr")) domain []
      | None => (domain, [])
      end
  | None => (domain, [])
  end.

(** One turn of the loop of lines 129-149. *)
Definition keyword_of_row (row : node) : option json :=
  match find_all row "td" with
  | c0 :: c1 :: c2 :: c3 :: c4 :: c5 :: c6 :: c7 :: _ =>
      Some (JDict [("keyword", JStr (PyStr.strip (text c0)));
                   ("rank", JStr (PyStr.strip (text c1)));
                   ("traffic_percentage", JStr (PyStr.strip (text c2)));
                   ("volume", JStr (PyStr.strip (text c3)));
                   ("kd_percentage", JStr (PyStr.strip (text c4)));
                   ("cpc", JStr (PyStr.strip (text c5)));
                   ("num_results", JStr (PyStr.strip (text c6)));
                   ("search_trend", JStr (PyStr.strip (text c7)))])
  | _ => None
  end.

(** Lines 124-149. *)
Definition extract_top_keywords (soup : list node) : list json :=
  match soup_find_class soup "div" "table" with
  | Some keyword_table =>
      flat_map (fun row => match keyword_of_row row with
                           | Some d => [d]
                           | None => []
                           end)
               (tl (find_all (tag keyword_table) "tr"))
  | None => []
  end.

(** Lines 45-169: what the [try] block computes from the parsed page, the
    dict [result] or the exception that leaves the block. *)
Definition extract_report (domain : string) (soup : list node) : result json :=
  let organic_traffic := extract_metric soup "Organic Search Traffic" in
  let traffic_value := extract_metric soup "Traffic Value" in
  let authority_score := extract_metric soup "Authority Score" in
  let visits := extract_metric soup "Visits" in
  let pages_per_visit := extract_metric soup "Pages / Visit" in
  let avg_visit_duration := extract_metric soup "Avg. Visit Duration" in
  let bounce_rate := extract_metric soup "Bounce Rate" in
  let total_referring_domains := extract_metric soup "Total Referring Domains" in
  let ranking_keywords := extract_metric soup "Ranking Keywords" in
  backlinks <- extract_backlinks soup ;;
  let top_pages := extract_top_pages soup in
  let '(domain, competitors) := extract_competitors soup domain in
  let top_keywords := extract_top_keywords soup in
  Ok (JDict
        [("domain", JStr domain);
         ("metrics",
          JDict [("organic_traffic", JStr organic_traffic);
                 ("traffic_value", JStr traffic_value);
                 ("authority_score", JStr authority_score);
                 ("visits", JStr visits);
                 ("pages_per_visit", JStr pages_per_visit);
                 ("avg_visit_duration", JStr avg_visit_duration);
                 ("bounce_rate", JStr bounce_rate);
                 ("total_referring_domains", JStr total_referring_domains);
                 ("ranking_keywords", JStr ranking_keywords)]);
         ("top_keywords", JList top_keywords);
         ("backlinks", JList backlinks);
         ("competitors", JList competitors);
         ("top_pages", JList top_pages)]).

(** The URL of line 25. *)
Definition target_url (domain : string) : string :=
  "https://tools.trafficthinktank.com/website-traffic-checker?q=" ++ domain.

Definition error_payload (msg : string) : json :=
  JDict [("error", JStr msg)].

(** [get_seo_data(domain)]. [requests_get url] is the outcome of
    [requests.get(url, headers=headers, timeout=30)]: a response or the
    exception it raises. The second component of the pair is the [None]
    of every [return]. *)
Definition get_seo_data (requests_get : string -> result response)
  (domain : string) : json * option json :=
  let url := target_url domain in
  let try_block : result json :=
    response <- requests_get url ;;
    if negb (status_code response =? 200)%Z
    then Ok (error_payload ("Failed to retrieve the page. Status Code: "
                            ++ PyStr.of_int (status_code response)))
    else extract_report domain (soup response) in
  match try_block with
  | Ok payload => (payload, None)
  | Raise e =>
      match exn_type e with
      | RequestException =>
          (error_payload ("Request failed: " ++ exn_str e), None)
      | _ => (error_payload ("An error occurred: " ++ exn_str e), None)
      end
  end.

(** ** fetch_seo_data (app.py, lines 191-206) *)

(** [request.args.get(key, default)]: the first value given for [key]. *)
Fixpoint args_get (key default : string) (args : list (string * string))
  : string :=
  match args with
  | [] => default
  | (k, v) :: rest => if k =? key then v else args_get key default rest
  end.

(** The calls the route makes to the two functions of the module. *)
Inductive call :=
| CallNormalizeDomain (url : string)
| CallGetSeoData (domain : string).

Section Route.

Variable check_bracketed_netloc : string -> option string.
Variable nfkc_adds_delimiter : string -> bool.
Variable requests_get : string -> result response.

(** The route: the calls it made, and the pair (body given to [jsonify],
    HTTP status) it returns, or the exception that leaves it. *)
Definition fetch_seo_data (args : list (string * string))
  : list call * result (json * Z) :=
  let url := args_get "url" "" args in
  if url =? "" then
    ([], Ok (error_payload
               "No URL provided. Please include a 'url' parameter.", 400%Z))
  else
    match normalize_domain check_bracketed_netloc nfkc_adds_delimiter url with
    | Raise e => ([CallNormalizeDomain url], Raise e)
    | Ok domain =>
        let '(data, _) := get_seo_data requests_get domain in
        ([CallNormalizeDomain url; CallGetSeoData domain],
         if has_key "error" data then Ok (data, 500%Z)
         else Ok (data, 200%Z))
    end.

End Route.

(** ** Vocabulary of the properties *)

(** The nine labels [get_seo_data] looks up (lines 55-63), each with the
    key its value is stored under (lines 155-163). *)
Definition metric_labels : list (string * string) :=
  [("organic_traffic", "Organic Search Traffic");
   ("traffic_value", "Traffic Value");
   ("authority_score", "Authority Score");
   ("visits", "Visits");
   ("pages_per_visit", "Pages / Visit");
   ("avg_visit_duration", "Avg. Visit Duration");
   ("bounce_rate", "Bounce Rate");
   ("total_referring_domains", "Total Referring Domains");
   ("ranking_keywords", "Ranking Keywords")].

(** The keys of a report. *)
Definition report_keys : list string :=
  ["domain"; "metrics"; "top_keywords"; "backlinks"; "competitors";
   "top_pages"].

(** The extractor fails when the request raises, when the status is not
    200, or when an exception leaves the parsing of the page. *)
Definition extractor_failed (requests_get : string -> result response)
  (domain : string) : bool :=
  match requests_get (target_url domain) with
  | Raise _ => true
  | Ok response =>
      if negb (status_code response =? 200)%Z then true
      else match extract_report domain (soup response) with
           | Raise _ => true
           | Ok _ => false
           end
  end.

(** The dict appended to [backlinks] for one row. *)
Definition backlink_dict (source_url target_url anchor_text follow_type : string)
  : json :=
  JDict [("source_url", JStr source_url);
         ("target_url", JStr target_url);
         ("anchor_text", JStr anchor_text);
         ("follow_type", JStr follow_type)].

(** [a["href"].strip()] *)
Definition href_stripped (a : node) : result string :=
  v <- getitem a "href" ;; strip_value v.

Definition is_ok {A : Type} (r : result A) : bool :=
  match r with
  | Ok _ => true
  | Raise _ => false
  end.

Definition is_none {A : Type} (o : option A) : bool :=
  match o with
  | None => true
  | Some _ => false
  end.

(** What a turn of a loop appends to its list: the dict, if any. *)
Definition appended (r : option json) : list json :=
  match r with
  | Some d => [d]
  | None => []
  end.

(** The anchors that lines 75 and 76 read in [row] carry an [href] whose
    value is a string. A row with fewer than four columns, or with no
    anchor in its first cell, has none to read. *)
Definition hrefs_readable (row : node) : bool :=
  match find_all row "td" with
  | c0 :: _ :: _ :: _ :: _ =>
      match find_all c0 "a" with
      | a :: more =>
          is_ok (href_stripped a) && is_ok (href_stripped (last more a))
      | [] => true
      end
  | _ => true
  end.

(** What one row of the backlinks table contributes to [backlinks], in the
    words of the specification: nothing under four columns; otherwise one
    dict whose anchor text and follow type are the stripped texts of the
    second and third cell, and whose two URLs are "N/A" when the first
    cell has no anchor, and the stripped [href] of its first and of its
    last anchor when it has one. *)
Definition row_emits (row : node) (out : list json) : Prop :=
  let cols := find_all row "td" in
  (length cols < 4 -> out = [])
  /\ (4 <= length cols ->
      exists c0 c1 c2 source_url target_url,
        nth_error cols 0 = Some c0
        /\ nth_error cols 1 = Some c1
        /\ nth_error cols 2 = Some c2
        /\ out = [backlink_dict source_url target_url
                    (PyStr.strip (text c1)) (PyStr.strip (text c2))]
        /\ (find_all c0 "a" = [] ->
            source_url = "N/A" /\ target_url = "N/A")
        /\ (forall a more,
              find_all c0 "a" = a :: more ->
              href_stripped a = Ok source_url
              /\ href_stripped (last more a) = Ok target_url)).

(** None of the nine labels is found: [soup.find("p", string=label)] is
    [None] for each. *)
Definition no_metric_sections (soup : list node) : bool :=
  forallb (fun kl => is_none (soup_find_string soup "p" (snd kl)))
          metric_labels.

(** None of the four lookups that start a collection finds anything. *)
Definition no_collection_sections (soup : list node) : bool :=
  is_none (soup_find_string soup "h3" "Backlinks")
  && is_none (soup_find_string soup "h3" "Top Pages")
  && is_none (soup_find_string soup "h3" "Main Organic Competitors")
  && is_none (soup_find_class soup "div" "table").

(** The [metrics] dict with every value "Not Found". *)
Definition not_found_metrics : json :=
  JDict (map (fun kl => (fst kl, JStr "Not Found")) metric_labels).

(** The report with nothing found. *)
Definition empty_report (domain : string) : json :=
  JDict [("domain", JStr domain);
         ("metrics", not_found_metrics);
         ("top_keywords", JList []);
         ("backlinks", JList []);
         ("competitors", JList []);
         ("top_pages", JList [])].

(** The library checks as a Python without bracketed-host validation has
    them, on inputs whose NFKC form adds no delimiter. *)
Definition no_bracket_check : string -> option string := fun _ => None.
Definition nfkc_plain : string -> bool := fun _ => false.

(** ** Vocabulary of the further properties *)

(** The characters that end the network location of a URL. *)
Definition is_delimiter (c : ascii) : bool :=
  Ascii.eqb c "/" || Ascii.eqb c "?" || Ascii.eqb c "#".

(** The characters [urlsplit] removes from a URL: TAB, CR and LF. *)
Definition is_unsafe (c : ascii) : bool :=
  existsb (Ascii.eqb c) UrlParse.unsafe_url_bytes_to_remove.

(** [url] with TAB, CR and LF removed, as [urlsplit] does first. *)
Definition remove_unsafe (url : string) : string :=
  fold_left (fun u b => PyStr.remove_char b u)
            UrlParse.unsafe_url_bytes_to_remove url.

(** The longest prefix of [s] with no character that satisfies [p]. *)
Fixpoint take_until (p : ascii -> bool) (s : string) : string :=
  match s with
  | String c s' => if p c then EmptyString else String c (take_until p s')
  | EmptyString => EmptyString
  end.

(** What [urlsplit] does with a network location once it is cut out: the
    two bracket tests, then [_checknetloc]. *)
Definition netloc_checks (check_bracketed_netloc : string -> option string)
  (nfkc_adds_delimiter : string -> bool) (netloc : string) : result string :=
  netloc <-
    (if (PyStr.contains "[" netloc && negb (PyStr.contains "]" netloc))
        || (PyStr.contains "]" netloc && negb (PyStr.contains "[" netloc))
     then Raise (value_error "Invalid IPv6 URL")
     else if PyStr.contains "[" netloc && PyStr.contains "]" netloc
     then match check_bracketed_netloc netloc with
          | Some msg => Raise (value_error msg)
          | None => Ok netloc
          end
     else Ok netloc) ;;
  _ <- UrlParse._checknetloc nfkc_adds_delimiter netloc ;;
  Ok netloc.

(** [url.startswith(("http://", "https://"))] *)
Definition has_scheme (url : string) : bool :=
  PyStr.startswith "http://" url || PyStr.startswith "https://" url.

(** A host made of ASCII characters other than / ? # [ ] TAB CR LF. *)
Definition plain_host (h : string) : bool :=
  forallb (fun c => (nat_of_ascii c <? 128)%nat
                    && negb (is_delimiter c) && negb (is_unsafe c)
                    && negb (Ascii.eqb c "[") && negb (Ascii.eqb c "]"))
          (PyStr.chars h).

(** [rest] is empty or starts with one of / ? # : what may follow the
    host in a URL. *)
Definition starts_path (rest : string) : bool :=
  match rest with
  | String c _ => is_delimiter c
  | EmptyString => true
  end.

(** Lines 18-19 of [normalize_domain]. *)
Definition strip_www (domain : string) : string :=
  if PyStr.startswith "www." domain then PyStr.slice_from 4 domain
  else domain.

(** [s.strip() == s] *)
Definition trimmed (s : string) : bool := PyStr.strip s =? s.

(** A dict with exactly the keys [row_keys], in this order, whose values
    are strings with no whitespace at either end. *)
Definition is_row (row_keys : list string) (d : json) : bool :=
  match d with
  | JDict items =>
      (if list_eq_dec string_dec (map fst items) row_keys then true else false)
      && forallb (fun v => match v with
                           | JStr s => trimmed s
                           | _ => false
                           end)
                 (map snd items)
  | _ => false
  end.

(** A list of such dicts. *)
Definition is_rows (row_keys : list string) (v : json) : bool :=
  match v with
  | JList l => forallb (is_row row_keys) l
  | _ => false
  end.

Definition keyword_keys : list string :=
  ["keyword"; "rank"; "traffic_percentage"; "volume"; "kd_percentage"; "cpc";
   "num_results"; "search_trend"].
Definition backlink_keys : list string :=
  ["source_url"; "target_url"; "anchor_text"; "follow_type"].
Definition competitor_keys : list string :=
  ["domain"; "common_keywords"; "competition_level"].
Definition page_keys : list string :=
  ["page_url"; "traffic_percentage"; "keywords"].

Definition field_is (key : string) (p : json -> bool) (d : json) : bool :=
  match field key d with
  | Some v => p v
  | None => false
  end.

(** The layout of a report: the six keys; a string under "domain"; the
    nine metrics; and under each collection a list of rows with the keys of
    that collection. *)
Definition conforms (payload : json) : bool :=
  (if list_eq_dec string_dec (keys payload) report_keys then true else false)
  && field_is "domain" (fun v => match v with JStr _ => true | _ => false end)
              payload
  && field_is "metrics" (is_row (map fst metric_labels)) payload
  && field_is "top_keywords" (is_rows keyword_keys) payload
  && field_is "backlinks" (is_rows backlink_keys) payload
  && field_is "competitors" (is_rows competitor_keys) payload
  && field_is "top_pages" (is_rows page_keys) payload.

(** The rows of a table that a loop visits: all [tr] but the first. *)
Definition data_rows (table : node) : list node :=
  tl (find_all table "tr").

(** The number of [td] cells of a row is at least [n]. *)
Definition has_columns (n : nat) (row : node) : bool :=
  (n <=? length (find_all row "td"))%nat.

(** ** get_seo_data and the route with the recursion limit of [.string] *)

(** The number of nested calls that evaluating [n.string] makes: bs4's
    [Tag.string] returns a string child as it is and calls [.string] on
    a tag child, so there is one call for each tag on the chain of only
    children that starts at [n]. *)
Fixpoint string_calls (n : node) : nat :=
  match n with
  | NavigableString _ | Comment _ => 0
  | Tag _ _ [c] => S (string_calls c)
  | Tag _ _ _ => 1
  end.

Module Limited.

Section RecursionLimit.

(** [frames] is the number of nested calls of [.string] the interpreter's
    stack has room for at the point where the body of [get_seo_data] calls
    [soup.find]; [extract_metric] calls [soup.find] from one call deeper,
    where there is room for one less. [recursion_error_str] is [str(e)] of
    the [RecursionError] Python raises beyond that. *)
Variable frames : nat.
Variable recursion_error_str : string.

(** [RecursionError] is an [Exception] and not a [RequestException]: it
    is caught by the handler of line 175. *)
Definition recursion_error : exn := mkExn OtherException recursion_error_str.

(** [.string] with room for [room] nested calls. *)
Fixpoint string_of (room : nat) (n : node) : result (option string) :=
  match n with
  | NavigableString s | Comment s => Ok (Some s)
  | Tag _ _ contents =>
      match room with
      | 0 => Raise recursion_error
      | S room' =>
          match contents with
          | [c] => string_of room' c
          | _ => Ok None
          end
      end
  end.

(** The test of [find(name, string=s)] on an element whose name
    matches. *)
Definition has_string (room : nat) (s : string) (n : node) : result bool :=
  r <- string_of room n ;;
  Ok (match r with
      | Some t => t =? s
      | None => false
      end).

(** The search stops at the first match; an exception raised while an
    element is tested ends it. *)
Fixpoint locate (p : node -> result bool) (order : list (node * list node))
  : result (option located) :=
  match order with
  | [] => Ok None
  | (n, sibs) :: rest =>
      b <- p n ;;
      if b then Ok (Some (mkLocated n sibs (map fst rest)))
      else locate p rest
  end.

(** [soup.find(name, string=s)]: [.string] is evaluated on the elements
    whose name matches. *)
Definition soup_find_string (room : nat) (soup : list node) (name s : string)
  : result (option located) :=
  locate (fun n => if is_tag name n then has_string room s n else Ok false)
         (walk_all soup).

(** [extract_metric] (lines 45-52). *)
Definition extract_metric (soup : list node) (metric_name : string)
  : result string :=
  metric_section <- soup_find_string (pred frames) soup "p" metric_name ;;
  Ok (match metric_section with
      | Some metric_section =>
          match find_next_sibling metric_section "p" with
          | Some value_tag =>
              match find value_tag "a" with
              | Some a => PyStr.strip (text a)
              | None => "Not Found"
              end
          | None => "Not Found"
          end
      | None => "Not Found"
      end).

(** Lines 65-84. *)
Definition extract_backlinks (soup : list node) : result (list json) :=
  backlinks_section <- soup_find_string frames soup "h3" "Backlinks" ;;
  match backlinks_section with
  | Some backlinks_section =>
      match find_next backlinks_section "table" with
      | Some backlinks_table =>
          backlinks_loop (tl (find_all backlinks_table "tr")) []
      | None => Ok []
      end
  | None => Ok []
  end.

(** Lines 86-103. *)
Definition extract_top_pages (soup : list node) : result (list json) :=
  top_pages_section <- soup_find_string frames soup "h3" "Top Pages" ;;
  Ok (match top_pages_section with
      | Some top_pages_section =>
          match find_next top_pages_section "table" with
          | Some top_pages_table =>
              flat_map (fun row => match page_of_row row with
                                   | Some d => [d]
                                   | None => []
                                   end)
                       (tl (find_all top_pages_table "tr"))
          | None => []
          end
      | None => []
      end).

(** Lines 105-122. *)
Definition extract_competitors (soup : list node) (domain : string)
  : result (string * list json) :=
  competitors_section <-
    soup_find_string frames soup "h3" "Main Organic Competitors" ;;
  Ok (match competitors_section with
      | Some competitors_section =>
          match find_next competitors_section "table" with
          | Some competitors_table =>
              competitors_loop (tl (find_all competitors_table "tr")) domain []
          | None => (domain, [])
          end
      | None => (domain, [])
      end).

(** Lines 45-169. *)
Definition extract_report (domain : string) (soup : list node) : result json :=
  organic_traffic <- extract_metric soup "Organic Search Traffic" ;;
  traffic_value <- extract_metric soup "Traffic Value" ;;
  authority_score <- extract_metric soup "Authority Score" ;;
  visits <- extract_metric soup "Visits" ;;
  pages_per_visit <- extract_metric soup "Pages / Visit" ;;
  avg_visit_duration <- extract_metric soup "Avg. Visit Duration" ;;
  bounce_rate <- extract_metric soup "Bounce Rate" ;;
  total_referring_domains <- extract_metric soup "Total Referring Domains" ;;
  ranking_keywords <- extract_metric soup "Ranking Keywords" ;;
  backlinks <- extract_backlinks soup ;;
  top_pages <- extract_top_pages soup ;;
  dc <- extract_competitors soup domain ;;
  let '(domain, competitors) := dc in
  let top_keywords := extract_top_keywords soup in
  Ok (JDict
        [("domain", JStr domain);
         ("metrics",
          JDict [("organic_traffic", JStr organic_traffic);
                 ("traffic_value", JStr traffic_value);
                 ("authority_score", JStr authority_score);
                 ("visits", JStr visits);
                 ("pages_per_visit", JStr pages_per_visit);
                 ("avg_visit_duration", JStr avg_visit_duration);
                 ("bounce_rate", JStr bounce_rate);
                 ("total_referring_domains", JStr total_referring_domains);
                 ("ranking_keywords", JStr ranking_keywords)]);
         ("top_keywords", JList top_keywords);
         ("backlinks", JList backlinks);
         ("competitors", JList competitors);
         ("top_pages", JList top_pages)]).

Variable requests_get : string -> result response.

(** [get_seo_data(domain)] *)
Definition get_seo_data (domain : string) : json * option json :=
  let url := target_url domain in
  let try_block : result json :=
    response <- requests_get url ;;
    if negb (status_code response =? 200)%Z
    then Ok (error_payload ("Failed to retrieve the page. Status Code: "
                            ++ PyStr.of_int (status_code response)))
    else extract_report domain (soup response) in
  match try_block with
  | Ok payload => (payload, None)
  | Raise e =>
      match exn_type e with
      | RequestException =>
          (error_payload ("Request failed: " ++ exn_str e), None)
      | _ => (error_payload ("An error occurred: " ++ exn_str e), None)
      end
  end.

Variable check_bracketed_netloc : string -> option string.
Variable nfkc_adds_delimiter : string -> bool.

(** The route (lines 191-206). *)
Definition fetch_seo_data (args : list (string * string))
  : list call * result (json * Z) :=
  let url := args_get "url" "" args in
  if url =? "" then
    ([], Ok (error_payload
               "No URL provided. Please include a 'url' parameter.", 400%Z))
  else
    match normalize_domain check_bracketed_netloc nfkc_adds_delimiter url with
    | Raise e => ([CallNormalizeDomain url], Raise e)
    | Ok domain =>
        let '(data, _) := get_seo_data domain in
        ([CallNormalizeDomain url; CallGetSeoData domain],
         if has_key "error" data then Ok (data, 500%Z)
         else Ok (data, 200%Z))
    end.

End RecursionLimit.

End Limited.

(** ** Vocabulary for pages *)










(** ** Sample pages *)

Definition el (name : string) (contents : list node) : node :=
  Tag name [] contents.
Definition txt (s : string) : node := NavigableString s.
Definition td (s : string) : node := el "td" [txt s].
Definition th (s : string) : node := el "th" [txt s].
Definition link (href s : string) : node :=
  Tag "a" [("href", AStr href)] [txt s].

(** A server that answers every request with status 200 and [page]. *)
Definition serves (page : list node) : string -> result response :=
  fun _ => Ok (mkResponse 200 page).

(** [<h3>Main Organic Competitors</h3><table><tr><th>Domain</th>
    <th>Common Keywords</th><th>Competition Level</th></tr>
    <tr><td>rival.com</td><td>12</td><td>High</td></tr></table>] *)
Definition competitors_page : list node :=
  [el "h3" [txt "Main Organic Competitors"];
   el "table"
      [el "tr" [th "Domain"; th "Common Keywords"; th "Competition Level"];
       el "tr" [td "rival.com"; td "12"; td "High"]]].

(** A backlinks table; the only thing that varies is the first cell of
    its data row.
    [<h3>Backlinks</h3><table><tr><th>Source</th><th>Anchor</th>
    <th>Type</th><th>Seen</th></tr><tr><td>CELL</td><td> home </td>
    <td>follow</td><td>today</td></tr></table>] *)
Definition backlinks_row (cell : list node) : node :=
  el "tr" [el "td" cell; td " home "; td "follow"; td "today"].

Definition backlinks_page (cell : list node) : list node :=
  [el "h3" [txt "Backlinks"];
   el "table"
      [el "tr" [th "Source"; th "Anchor"; th "Type"; th "Seen"];
       backlinks_row cell]].

(** [<a>blog</a>]: an anchor with no [href]. *)
Definition anchor_without_href : node := Tag "a" [] [txt "blog"].

(** [<div class="table"><table><tr><th>Keyword</th></tr><tr>
    <td>seo</td><td>1</td><td>10%</td><td>900</td><td>35</td>
    <td>1.2</td><td>5M</td><td>up</td></tr></table></div>] *)
Definition keywords_page : list node :=
  [Tag "div" [("class", AList ["table"])]
     [el "table"
         [el "tr" [th "Keyword"];
          el "tr" [td "seo"; td "1"; td "10%"; td "900"; td "35"; td "1.2";
                   td "5M"; td "up"]]]].

(** [<p>Visits</p><p><a href="/v"> 1.2K </a></p>] *)
Definition visits_page : list node :=
  [el "p" [txt "Visits"]; el "p" [link "/v" " 1.2K "]].

Example normalize_examples :
  normalize_domain no_bracket_check nfkc_plain "exa	mple.com/x?y#z" = Ok "example.com"
  /\ normalize_domain no_bracket_check nfkc_plain "[" = Raise (value_error "Invalid IPv6 URL")
  /\ normalize_domain no_bracket_check nfkc_plain "" = Ok ""
  /\ PyStr.strip "  a b 	" = "a b"
  /\ PyStr.of_int 404 = "404".
Proof. repeat split; vm_compute; reflexivity. Qed.

Example visits_metric : extract_metric visits_page "Visits" = "1.2K".
Proof. vm_compute. reflexivity. Qed.

Example keywords_rows :
  extract_top_keywords keywords_page =
  [JDict [("keyword", JStr "seo"); ("rank", JStr "1");
          ("traffic_percentage", JStr "10%"); ("volume", JStr "900");
          ("kd_percentage", JStr "35"); ("cpc", JStr "1.2");
          ("num_results", JStr "5M"); ("search_trend", JStr "up")]].
Proof. vm_compute. reflexivity. Qed.

Example backlinks_rows :
  extract_backlinks
    (backlinks_page [link " https://a.example/x " "a"; txt " to ";
                     link "https://b.example/y" "b"]) =
  Ok [backlink_dict "https://a.example/x" "https://b.example/y" "home" "follow"].
Proof. vm_compute. reflexivity. Qed.

(** * Properties *)

(** ** Strings: which characters a result is made of *)

Module PyStrFacts.
Import PyStr.

Lemma contains_In (c : ascii) (s : string) :
  contains c s = true <-> In c (chars s).
Proof.
  unfold contains. rewrite existsb_exists. split.
  - intros [x [Hx Heq]]. apply Ascii.eqb_eq in Heq. now subst.
  - intros H. exists c. split; [assumption | apply Ascii.eqb_refl].
Qed.

Lemma contains_false (c : ascii) (s : string) :
  ~ In c (chars s) -> contains c s = false.
Proof.
  intros H. destruct (contains c s) eqn:E; [|reflexivity].
  apply contains_In in E. contradiction.
Qed.

Lemma chars_append (a b : string) :
  chars (a ++ b) = (chars a ++ chars b)%list.
Proof. induction a as [|c a IH]; simpl; [reflexivity | now rewrite <- IH]. Qed.

Lemma chars_substring (s : string) :
  forall n m, incl (chars (substring n m s)) (chars s).
Proof.
  induction s as [|c s IH]; intros n m.
  - destruct n, m; simpl; apply incl_refl.
  - destruct n as [|n].
    + destruct m as [|m]; simpl.
      * apply incl_nil_l.
      * apply incl_cons; [now left|].
        apply incl_tl. apply (IH 0 m).
    + simpl. apply incl_tl. apply IH.
Qed.

Lemma chars_remove_char (c : ascii) (s : string) :
  incl (chars (remove_char c s)) (chars s).
Proof.
  induction s as [|d s IH]; simpl; [apply incl_refl|].
  destruct (Ascii.eqb c d).
  - now apply incl_tl.
  - apply incl_cons; [now left | now apply incl_tl].
Qed.

Lemma chars_lstrip (p : ascii -> bool) (s : string) :
  incl (chars (lstrip_with p s)) (chars s).
Proof.
  induction s as [|d s IH]; simpl; [apply incl_refl|].
  destruct (p d); [now apply incl_tl | apply incl_refl].
Qed.

Lemma isascii_incl (s t : string) :
  incl (chars s) (chars t) -> isascii t = true -> isascii s = true.
Proof.
  unfold isascii. rewrite !forallb_forall. intros Hi Ht c Hc.
  apply Ht, Hi, Hc.
Qed.

End PyStrFacts.

(** ** The normaliser *)

Section NormalizerFacts.
Import PyStr PyStrFacts UrlParse.

Variable check_bracketed_netloc : string -> option string.
Variable nfkc_adds_delimiter : string -> bool.

Local Abbreviation urlsplit := (urlsplit_netloc check_bracketed_netloc nfkc_adds_delimiter).
Local Abbreviation normalize := (normalize_domain check_bracketed_netloc nfkc_adds_delimiter).

(** On an ASCII string with no square bracket, [urlsplit] raises
    nothing, and the network location is made of characters of the
    input. *)
Lemma urlsplit_netloc_plain (url : string) :
  isascii url = true ->
  ~ In "["%char (chars url) ->
  ~ In "]"%char (chars url) ->
  exists netloc,
    urlsplit url = Ok netloc /\ incl (chars netloc) (chars url).
Proof.
  intros Hascii Hopen Hclose.
  unfold urlsplit_netloc.
  set (u1 := lstrip_with c0_control_or_space url).
  set (u2 := fold_left (fun u b => remove_char b u) unsafe_url_bytes_to_remove u1).
  assert (H2 : incl (chars u2) (chars url)).
  { subst u2. simpl.
    eapply incl_tran; [apply chars_remove_char|].
    eapply incl_tran; [apply chars_remove_char|].
    eapply incl_tran; [apply chars_remove_char|].
    apply chars_lstrip. }
  match goal with |- context [bind ?c _] =>
    match c with
    | (if slice_to 2 ?u =? "//" then _ else _) => set (u3 := u)
    end end.
  assert (H3 : incl (chars u3) (chars url)).
  { subst u3. destruct (find ":" 0 u2) as [[|i]|]; try assumption.
    destruct u2 as [|c0 r] eqn:Eu; try assumption.
    match goal with |- context [if ?b then _ else _] => destruct b end;
      [|assumption].
    eapply incl_tran; [apply chars_substring | assumption]. }
  clearbody u3. clear u1 u2 H2.
  destruct (slice_to 2 u3 =? "//").
  - set (netloc := fst (_splitnetloc u3 2)).
    assert (Hn : incl (chars netloc) (chars url)).
    { subst netloc. unfold _splitnetloc. simpl fst.
      eapply incl_tran; [apply chars_substring | assumption]. }
    clearbody netloc.
    rewrite (contains_false "[" netloc) by (intros H; apply Hopen, Hn, H).
    rewrite (contains_false "]" netloc) by (intros H; apply Hclose, Hn, H).
    simpl. unfold _checknetloc.
    rewrite (isascii_incl netloc url Hn Hascii), orb_true_r. simpl.
    exists netloc. split; [reflexivity | assumption].
  - simpl. exists "". split; [reflexivity | apply incl_nil_l].
Qed.

(** Whatever leaves [urlsplit] is a [ValueError]. *)
Lemma urlsplit_netloc_raises (url : string) (e : exn) :
  urlsplit url = Raise e -> exn_type e = ValueError.
Proof.
  unfold urlsplit_netloc, _checknetloc, bind.
  repeat match goal with
         | |- context [match (if ?b then _ else _) with _ => _ end] =>
             destruct b
         | |- context [match check_bracketed_netloc ?n with _ => _ end] =>
             destruct (check_bracketed_netloc n)
         | |- context [if ?b then _ else _] => destruct b
         end;
    intros H; inversion H; reflexivity.
Qed.

Lemma normalize_domain_plain (url : string) :
  isascii url = true ->
  ~ In "["%char (chars url) ->
  ~ In "]"%char (chars url) ->
  exists domain, normalize url = Ok domain.
Proof.
  intros Hascii Hopen Hclose.
  unfold normalize_domain.
  set (u := if negb (startswith "http://" url || startswith "https://" url)
            then "https://" ++ url else url).
  assert (Hu : forall c, In c (chars u) -> In c (chars "https://") \/ In c (chars url)).
  { intros c. subst u.
    destruct (negb (startswith "http://" url || startswith "https://" url)).
    - rewrite chars_append, in_app_iff. tauto.
    - tauto. }
  destruct (urlsplit_netloc_plain u) as [netloc [Hn _]].
  - unfold isascii. rewrite forallb_forall. intros c Hc.
    destruct (Hu c Hc) as [H|H].
    + simpl in H. repeat (destruct H as [<-|H]; [reflexivity|]). destruct H.
    + unfold isascii in Hascii. rewrite forallb_forall in Hascii. now apply Hascii.
  - intros Hc. destruct (Hu _ Hc) as [H|H]; [|contradiction].
    simpl in H. repeat (destruct H as [H|H]; [discriminate H|]). destruct H.
  - intros Hc. destruct (Hu _ Hc) as [H|H]; [|contradiction].
    simpl in H. repeat (destruct H as [H|H]; [discriminate H|]). destruct H.
  - rewrite Hn. simpl. eauto.
Qed.

Lemma normalize_domain_raises (url : string) (e : exn) :
  normalize url = Raise e -> exn_type e = ValueError.
Proof.
  unfold normalize_domain.
  match goal with |- context [urlsplit ?u] =>
    pose proof (urlsplit_netloc_raises u) as Hr;
    destruct (urlsplit u) as [n|e'] eqn:E end.
  - simpl. discriminate.
  - simpl. intros H. inversion H; subst. now apply Hr.
Qed.

End NormalizerFacts.


(** C7: [normalize_domain] maps "www.example.com",
    "https://www.example.com/path" and "example.com" to "example.com",
    and "http://Sub.Example.com" to "Sub.Example.com": the case of the
    host is kept. This holds whatever the two library checks answer. *)
Theorem normalize_domain_examples
  (check_bracketed_netloc : string -> option string)
  (nfkc_adds_delimiter : string -> bool) :
  let normalize := normalize_domain check_bracketed_netloc nfkc_adds_delimiter in
  normalize "www.example.com" = Ok "example.com"
  /\ normalize "https://www.example.com/path" = Ok "example.com"
  /\ normalize "example.com" = Ok "example.com"
  /\ normalize "http://Sub.Example.com" = Ok "Sub.Example.com".
Proof. repeat split; vm_compute; reflexivity. Qed.

(** ** The route *)

Lemma args_get_absent (key default : string) (args : list (string * string)) :
  ~ In key (map fst args) -> args_get key default args = default.
Proof.
  induction args as [|[k v] rest IH]; simpl; intros H; [reflexivity|].
  destruct (k =? key) eqn:E.
  - apply String.eqb_eq in E. exfalso. apply H. now left.
  - apply IH. intros Hin. apply H. now right.
Qed.

Section RouteFacts.

Variable check_bracketed_netloc : string -> option string.
Variable nfkc_adds_delimiter : string -> bool.
Variable requests_get : string -> result response.

Local Abbreviation normalize :=
  (normalize_domain check_bracketed_netloc nfkc_adds_delimiter).
Local Abbreviation route :=
  (fetch_seo_data check_bracketed_netloc nfkc_adds_delimiter requests_get).

(** A request with a non-empty [url] that the normaliser accepts: the
    route calls both functions and answers with the extractor's payload,
    500 when it holds the key "error" and 200 otherwise. *)
Lemma route_dispatch (args : list (string * string)) (url domain : string) :
  args_get "url" "" args = url ->
  url <> "" ->
  normalize url = Ok domain ->
  route args =
  ([CallNormalizeDomain url; CallGetSeoData domain],
   Ok (fst (get_seo_data requests_get domain),
       if has_key "error" (fst (get_seo_data requests_get domain))
       then 500%Z else 200%Z)).
Proof.
  intros Hargs Hurl Hnorm. unfold fetch_seo_data.
  rewrite Hargs. apply String.eqb_neq in Hurl. rewrite Hurl, Hnorm.
  destruct (get_seo_data requests_get domain) as [data o]. simpl fst.
  destruct (has_key "error" data); reflexivity.
Qed.

(** When the normaliser raises, the exception leaves the route and the
    extractor is not called. *)
Lemma route_raises (args : list (string * string)) (url : string) (e : exn) :
  args_get "url" "" args = url ->
  url <> "" ->
  normalize url = Raise e ->
  route args = ([CallNormalizeDomain url], Raise e).
Proof.
  intros Hargs Hurl Hnorm. unfold fetch_seo_data.
  rewrite Hargs. apply String.eqb_neq in Hurl. now rewrite Hurl, Hnorm.
Qed.

(** C6: a request to /api/seo-data with no [url] parameter is answered
    with status 400 and the body
    {"error": "No URL provided. Please include a 'url' parameter."};
    the route calls neither [normalize_domain] nor [get_seo_data]. *)
Theorem missing_url_is_400 (args : list (string * string)) :
  ~ In "url" (map fst args) ->
  fetch_seo_data check_bracketed_netloc nfkc_adds_delimiter requests_get args =
  ([],
   Ok (JDict [("error",
               JStr "No URL provided. Please include a 'url' parameter.")],
       400%Z)).
Proof.
  intros H. unfold fetch_seo_data.
  rewrite (args_get_absent "url" "" args H). reflexivity.
Qed.

(** C5: when the request returns a status other than 200,
    [get_seo_data] returns the payload
    {"error": "Failed to retrieve the page. Status Code: <code>"} with the
    status code in decimal and nothing else, and the route answers with
    that payload and status 500. *)
Theorem non_200_is_error_500 (domain : string) (response : response) :
  requests_get (target_url domain) = Ok response ->
  status_code response <> 200%Z ->
  let payload :=
    JDict [("error",
            JStr ("Failed to retrieve the page. Status Code: "
                  ++ PyStr.of_int (status_code response)))] in
  get_seo_data requests_get domain = (payload, None)
  /\ forall args url,
       args_get "url" "" args = url ->
       url <> "" ->
       normalize_domain check_bracketed_netloc nfkc_adds_delimiter url
         = Ok domain ->
       snd (fetch_seo_data check_bracketed_netloc nfkc_adds_delimiter
              requests_get args) = Ok (payload, 500%Z).
Proof.
  intros Hget Hcode payload.
  assert (G : get_seo_data requests_get domain = (payload, None)).
  { unfold get_seo_data. rewrite Hget. cbn [bind].
    apply Z.eqb_neq in Hcode. rewrite Hcode. reflexivity. }
  split; [exact G|].
  intros args url Hargs Hurl Hnorm.
  rewrite (route_dispatch args url domain Hargs Hurl Hnorm), G.
  reflexivity.
Qed.

(** On every ASCII string with no square bracket [normalize_domain]
    returns a host and raises nothing, and for a non-empty such [url] the
    route passes that host to [get_seo_data]. *)
Theorem normalize_domain_total_on_plain_ascii (url : string) :
  PyStr.isascii url = true ->
  PyStr.contains "[" url = false ->
  PyStr.contains "]" url = false ->
  exists domain,
    normalize_domain check_bracketed_netloc nfkc_adds_delimiter url = Ok domain
    /\ forall args,
         args_get "url" "" args = url ->
         url <> "" ->
         fst (fetch_seo_data check_bracketed_netloc nfkc_adds_delimiter
                requests_get args) =
         [CallNormalizeDomain url; CallGetSeoData domain].
Proof.
  intros Hascii Hopen Hclose.
  destruct (normalize_domain_plain check_bracketed_netloc nfkc_adds_delimiter url)
    as [domain Hd]; try assumption.
  - intros H. apply PyStrFacts.contains_In in H. congruence.
  - intros H. apply PyStrFacts.contains_In in H. congruence.
  - exists domain. split; [exact Hd|].
    intros args Hargs Hurl.
    now rewrite (route_dispatch args url domain Hargs Hurl Hd).
Qed.

End RouteFacts.

(** C8 fails on the code: [normalize_domain] is not total. On "[" the
    call to [urlparse] of line 16 raises [ValueError("Invalid IPv6 URL")]
    whatever the library checks answer; [normalize_domain] does not catch
    it, and neither does the route, which calls it outside any [try]: the
    exception leaves [fetch_seo_data] before the extractor is called,
    where every other failure is answered with an "error" payload. *)
Lemma normalize_domain_raises_on_bracket :
  normalize_domain no_bracket_check nfkc_plain "[" =
    Raise (value_error "Invalid IPv6 URL")
  /\ ~ (exists chk nfkc,
          forall url, exists domain, normalize_domain chk nfkc url = Ok domain)
  /\ fetch_seo_data no_bracket_check nfkc_plain (serves []) [("url", "[")] =
       ([CallNormalizeDomain "["], Raise (value_error "Invalid IPv6 URL")).
Proof.
  split; [vm_compute; reflexivity|]. split; [|vm_compute; reflexivity].
  intros [chk [nfkc H]]. destruct (H "[") as [domain Hd].
  vm_compute in Hd. discriminate Hd.
Qed.

Lemma missing_url_is_400_witness :
  fetch_seo_data no_bracket_check nfkc_plain (serves visits_page)
                 [("domain", "example.com")] =
  ([],
   Ok (JDict [("error",
               JStr "No URL provided. Please include a 'url' parameter.")],
       400%Z)).
Proof.
  apply (missing_url_is_400 no_bracket_check nfkc_plain (serves visits_page)
           [("domain", "example.com")]).
  simpl. intros [H|[]]. discriminate H.
Defined.

Lemma non_200_is_error_500_witness :
  let requests_get := fun _ : string => Ok (mkResponse 404 []) in
  get_seo_data requests_get "example.com" =
    (JDict [("error", JStr "Failed to retrieve the page. Status Code: 404")],
     None)
  /\ snd (fetch_seo_data no_bracket_check nfkc_plain requests_get
            [("url", "www.example.com")]) =
     Ok (JDict [("error",
                 JStr "Failed to retrieve the page. Status Code: 404")],
         500%Z).
Proof.
  intros requests_get.
  destruct (non_200_is_error_500 no_bracket_check nfkc_plain requests_get
              "example.com" (mkResponse 404 [])) as [G R].
  - reflexivity.
  - simpl. discriminate.
  - split; [exact G|].
    apply (R [("url", "www.example.com")] "www.example.com").
    + reflexivity.
    + discriminate.
    + vm_compute. reflexivity.
Defined.

Lemma normalize_domain_total_on_plain_ascii_witness :
  exists domain,
    normalize_domain no_bracket_check nfkc_plain "www.example.com" = Ok domain
    /\ forall args,
         args_get "url" "" args = "www.example.com" ->
         "www.example.com" <> "" ->
         fst (fetch_seo_data no_bracket_check nfkc_plain (serves visits_page) args) =
         [CallNormalizeDomain "www.example.com"; CallGetSeoData domain].
Proof.
  apply (normalize_domain_total_on_plain_ascii no_bracket_check nfkc_plain
           (serves visits_page) "www.example.com");
    vm_compute; reflexivity.
Defined.

(** ** The extractor *)

(** Below a tag, document order is the tag and then its contents. *)
Lemma walk_Tag (name : string) (attrs : list (string * attr_value))
  (contents sibs : list node) :
  walk (Tag name attrs contents) sibs =
  (Tag name attrs contents, sibs) :: walk_all contents.
Proof. reflexivity. Qed.

(** What [find] and [find_all] return are tags of the name asked for. *)
Lemma find_all_tags (t : node) (name : string) :
  Forall (fun n => is_tag name n = true) (find_all t name).
Proof.
  unfold find_all. apply Forall_forall. intros n Hin.
  apply filter_In in Hin. tauto.
Qed.

Lemma locate_holds (p : node -> bool) (order : list (node * list node))
  (t : located) :
  locate p order = Some t -> p (tag t) = true.
Proof.
  induction order as [|[n sibs] rest IH]; simpl; [discriminate|].
  destruct (p n) eqn:E; [|exact IH].
  intros H. inversion H; subst. exact E.
Qed.

(** The report is built exactly when the backlinks loop raises nothing;
    its [domain] is the value the competitors loop leaves in the variable
    [domain]. *)
Lemma extract_report_ok (domain : string) (soup : list node) (payload : json) :
  extract_report domain soup = Ok payload ->
  exists metrics backlinks,
    extract_backlinks soup = Ok backlinks
    /\ payload =
       JDict [("domain", JStr (fst (extract_competitors soup domain)));
              ("metrics", JDict metrics);
              ("top_keywords", JList (extract_top_keywords soup));
              ("backlinks", JList backlinks);
              ("competitors", JList (snd (extract_competitors soup domain)));
              ("top_pages", JList (extract_top_pages soup))]
    /\ metrics =
       map (fun kl => (fst kl, JStr (extract_metric soup (snd kl))))
           metric_labels.
Proof.
  unfold extract_report.
  destruct (extract_backlinks soup) as [backlinks|e]; cbn [bind]; [|discriminate].
  destruct (extract_competitors soup domain) as [d competitors].
  intros H. inversion H; subst. eexists. exists backlinks.
  split; [reflexivity|]. split; reflexivity.
Qed.

Lemma extract_report_raise (domain : string) (soup : list node) (e : exn) :
  extract_report domain soup = Raise e -> extract_backlinks soup = Raise e.
Proof.
  unfold extract_report.
  destruct (extract_backlinks soup) as [backlinks|e']; cbn [bind].
  - destruct (extract_competitors soup domain). discriminate.
  - intros H. inversion H. reflexivity.
Qed.

(** An exception that leaves the parsing of the page is caught by the
    handler of line 175: the payload has the single key "error", whose
    value ends with [str(e)]. *)
Lemma parsing_exception_payload (requests_get : string -> result response)
  (domain : string) (response : response) (e : exn) :
  requests_get (target_url domain) = Ok response ->
  status_code response = 200%Z ->
  extract_report domain (soup response) = Raise e ->
  exn_type e <> RequestException ->
  get_seo_data requests_get domain =
  (JDict [("error", JStr ("An error occurred: " ++ exn_str e))], None).
Proof.
  intros Hget Hcode Hr Hty. unfold get_seo_data.
  rewrite Hget. cbn [bind]. rewrite Hcode, Hr. cbn [negb Z.eqb Pos.eqb].
  destruct (exn_type e); try reflexivity. contradiction Hty. reflexivity.
Qed.

(** The payload holds the key "error" exactly when the extractor
    failed. *)
Lemma has_error_iff_failed (requests_get : string -> result response)
  (domain : string) :
  has_key "error" (fst (get_seo_data requests_get domain)) =
  extractor_failed requests_get domain.
Proof.
  unfold get_seo_data, extractor_failed.
  destruct (requests_get (target_url domain)) as [response|e]; cbn [bind].
  - destruct (negb (status_code response =? 200)%Z); [reflexivity|].
    destruct (extract_report domain (soup response)) as [payload|e] eqn:E.
    + apply extract_report_ok in E.
      destruct E as [metrics [backlinks [_ [-> _]]]]. reflexivity.
    + destruct (exn_type e); reflexivity.
  - destruct (exn_type e); reflexivity.
Qed.

(** C9: [get_seo_data] returns either a dict with the single key "error"
    (when the extractor failed) or a dict with exactly the keys domain,
    metrics, top_keywords, backlinks, competitors, top_pages and no key
    "error"; so a request that reaches the extractor is answered with
    status 500 exactly when the extractor failed, and with 200
    otherwise. *)
Theorem payload_keys_and_dispatch
  (check_bracketed_netloc : string -> option string)
  (nfkc_adds_delimiter : string -> bool)
  (requests_get : string -> result response) (domain : string) :
  let data := fst (get_seo_data requests_get domain) in
  snd (get_seo_data requests_get domain) = None
  /\ (extractor_failed requests_get domain = true ->
      exists msg, data = JDict [("error", JStr msg)])
  /\ (extractor_failed requests_get domain = false ->
      keys data = ["domain"; "metrics"; "top_keywords"; "backlinks";
                   "competitors"; "top_pages"]
      /\ has_key "error" data = false)
  /\ forall args url,
       args_get "url" "" args = url ->
       url <> "" ->
       normalize_domain check_bracketed_netloc nfkc_adds_delimiter url
         = Ok domain ->
       snd (fetch_seo_data check_bracketed_netloc nfkc_adds_delimiter
              requests_get args) =
       Ok (data,
           if extractor_failed requests_get domain then 500%Z else 200%Z).
Proof.
  intros data. subst data.
  split; [|split; [|split]].
  - unfold get_seo_data.
    destruct (bind (requests_get (target_url domain)) _) as [p|e];
      [reflexivity | destruct (exn_type e); reflexivity].
  - unfold get_seo_data, extractor_failed.
    destruct (requests_get (target_url domain)) as [response|e]; cbn [bind].
    + destruct (negb (status_code response =? 200)%Z);
        [intros _; eexists; reflexivity|].
      destruct (extract_report domain (soup response)) as [payload|e];
        [discriminate|].
      intros _. destruct (exn_type e); eexists; reflexivity.
    + intros _. destruct (exn_type e); eexists; reflexivity.
  - intros H. split; [|rewrite has_error_iff_failed; exact H].
    revert H. unfold get_seo_data, extractor_failed.
    destruct (requests_get (target_url domain)) as [response|e]; cbn [bind];
      [|discriminate].
    destruct (negb (status_code response =? 200)%Z); [discriminate|].
    destruct (extract_report domain (soup response)) as [payload|e] eqn:E;
      [|discriminate].
    apply extract_report_ok in E.
    destruct E as [metrics [backlinks [_ [-> _]]]]. reflexivity.
  - intros args url Hargs Hurl Hnorm.
    rewrite (route_dispatch _ _ _ args url domain Hargs Hurl Hnorm).
    now rewrite has_error_iff_failed.
Qed.

Lemma payload_keys_and_dispatch_witness :
  extractor_failed (serves visits_page) "example.com" = false
  /\ keys (fst (get_seo_data (serves visits_page) "example.com")) = report_keys
  /\ snd (fetch_seo_data no_bracket_check nfkc_plain (serves visits_page)
            [("url", "https://www.example.com/path")]) =
     Ok (fst (get_seo_data (serves visits_page) "example.com"), 200%Z)
  /\ extractor_failed (serves (backlinks_page [anchor_without_href]))
       "example.com" = true
  /\ snd (fetch_seo_data no_bracket_check nfkc_plain
            (serves (backlinks_page [anchor_without_href]))
            [("url", "example.com")]) =
     Ok (JDict [("error", JStr "An error occurred: 'href'")], 500%Z).
Proof.
  destruct (payload_keys_and_dispatch no_bracket_check nfkc_plain
              (serves visits_page) "example.com") as [_ [_ [K D]]].
  destruct (payload_keys_and_dispatch no_bracket_check nfkc_plain
              (serves (backlinks_page [anchor_without_href])) "example.com")
    as [_ [_ [_ D']]].
  split; [reflexivity|].
  split; [apply K; reflexivity|].
  split.
  - apply (D [("url", "https://www.example.com/path")]
             "https://www.example.com/path");
      [reflexivity | discriminate | vm_compute; reflexivity].
  - split; [reflexivity|].
    apply (D' [("url", "example.com")] "example.com");
      [reflexivity | discriminate | vm_compute; reflexivity].
Defined.

(** C1 fails on the code: the competitors loop assigns the variable
    [domain] (line 115), so with one competitor row the report for
    "example.com" carries the competitor's name in its "domain" field. *)
Theorem competitors_overwrite_domain :
  fst (get_seo_data (serves competitors_page) "example.com") =
  JDict [("domain", JStr "rival.com");
         ("metrics",
          JDict [("organic_traffic", JStr "Not Found");
                 ("traffic_value", JStr "Not Found");
                 ("authority_score", JStr "Not Found");
                 ("visits", JStr "Not Found");
                 ("pages_per_visit", JStr "Not Found");
                 ("avg_visit_duration", JStr "Not Found");
                 ("bounce_rate", JStr "Not Found");
                 ("total_referring_domains", JStr "Not Found");
                 ("ranking_keywords", JStr "Not Found")]);
         ("top_keywords", JList []);
         ("backlinks", JList []);
         ("competitors",
          JList [JDict [("domain", JStr "rival.com");
                        ("common_keywords", JStr "12");
                        ("competition_level", JStr "High")]]);
         ("top_pages", JList [])].
Proof. vm_compute. reflexivity. Qed.

(** C2 fails on the code: an anchor with no [href] in the first cell of
    a backlinks row makes line 75 raise [KeyError('href')]; the handler of
    line 175 turns it into an error payload and the whole report is
    lost. *)
Theorem missing_href_is_an_error :
  has_key "error"
    (fst (get_seo_data (serves (backlinks_page [txt "plain text"]))
            "example.com")) = false
  /\ get_seo_data (serves (backlinks_page [anchor_without_href]))
       "example.com" =
     (JDict [("error", JStr "An error occurred: 'href'")], None).
Proof. split; vm_compute; reflexivity. Qed.

(** ** Backlinks *)

Lemma backlink_of_row_emits (row : node) :
  hrefs_readable row = true ->
  exists r, backlink_of_row row = Ok r /\ row_emits row (appended r).
Proof.
  unfold hrefs_readable, backlink_of_row, row_emits, backlink_of_cols, find.
  destruct (find_all row "td") as [|c0 [|c1 [|c2 [|c3 rest]]]];
    try (intros _; exists None; split; [reflexivity|];
         split; [reflexivity | simpl; lia]).
  destruct (find_all c0 "a") as [|a more] eqn:Ha; intros Hr.
  - eexists. split; [reflexivity|]. split; [simpl; lia|]. intros _.
    exists c0, c1, c2, "N/A", "N/A".
    repeat (split; [reflexivity|]).
    split; [tauto | intros a' more' H; rewrite Ha in H; discriminate H].
  - apply andb_prop in Hr. destruct Hr as [H1 H2].
    unfold href_stripped in H1, H2.
    cbn [hd_error].
    destruct (bind (getitem a "href") _) as [s|e] eqn:Es; [|discriminate].
    destruct (bind (getitem (last more a) "href") _) as [t|e] eqn:Et;
      [|discriminate].
    cbn [bind]. eexists. split; [reflexivity|]. split; [simpl; lia|]. intros _.
    exists c0, c1, c2, s, t.
    repeat (split; [reflexivity|]).
    split; [intros H; rewrite Ha in H; discriminate H|].
    intros a' more' H. rewrite Ha in H. inversion H; subst.
    unfold href_stripped. split; assumption.
Qed.

Lemma backlinks_loop_emits (rows : list node) :
  forallb hrefs_readable rows = true ->
  forall backlinks,
  exists emitted,
    backlinks_loop rows backlinks = Ok (backlinks ++ concat emitted)%list
    /\ Forall2 row_emits rows emitted.
Proof.
  induction rows as [|row rows IH]; simpl; intros Hr backlinks.
  - exists []. simpl. rewrite app_nil_r. split; [reflexivity | constructor].
  - apply andb_prop in Hr. destruct Hr as [Hrow Hrows].
    destruct (backlink_of_row_emits row Hrow) as [r [Er Hemit]].
    rewrite Er. cbn [bind].
    destruct (IH Hrows (match r with
                        | Some d => (backlinks ++ [d])%list
                        | None => backlinks
                        end)) as [emitted [El Hall]].
    exists (appended r :: emitted). split.
    + rewrite El. simpl. destruct r; simpl; [|reflexivity].
      now rewrite <- app_assoc.
    + constructor; assumption.
Qed.


(** C3, amended: for the rows of the backlinks table after the header
    whose anchors read by lines 75-76 carry an [href], [backlinks] is made
    row by row, in order: a row with fewer than 4 columns adds nothing; a
    row with at least 4 adds one dict with all four fields, the anchor
    text and follow type from the second and third cell, and the two URLs
    "N/A" when the first cell has no anchor and otherwise the stripped
    [href] of its first and of its last anchor. *)
Theorem backlinks_rows_emitted (soup : list node) (backlinks_section : located)
  (backlinks_table : node) :
  soup_find_string soup "h3" "Backlinks" = Some backlinks_section ->
  find_next backlinks_section "table" = Some backlinks_table ->
  forallb hrefs_readable (tl (find_all backlinks_table "tr")) = true ->
  exists emitted,
    extract_backlinks soup = Ok (concat emitted)
    /\ Forall2 row_emits (tl (find_all backlinks_table "tr")) emitted.
Proof.
  intros Hsec Htab Hr. unfold extract_backlinks. rewrite Hsec, Htab.
  destruct (backlinks_loop_emits _ Hr []) as [emitted [El Hall]].
  exists emitted. split; assumption.
Qed.

(** C3, as stated, fails: with [<a href="N/A">x</a>] in the first cell
    both URLs are "N/A" although the cell has an anchor; and a row of four
    columns whose anchor has no [href] adds no dict, the loop ending in
    [KeyError('href')]. *)
Lemma backlink_urls_not_as_claimed :
  (find_all (el "td" [link "N/A" "x"]) "a" <> []
   /\ extract_backlinks (backlinks_page [link "N/A" "x"]) =
      Ok [backlink_dict "N/A" "N/A" "home" "follow"])
  /\ (length (find_all (backlinks_row [anchor_without_href]) "td") = 4
      /\ extract_backlinks (backlinks_page [anchor_without_href]) =
         Raise (key_error "href")).
Proof.
  split; split; try (vm_compute; reflexivity).
  vm_compute. discriminate.
Qed.

Lemma backlinks_rows_emitted_witness :
  let first_cell := [link " https://a.example/x " "a"; txt " to ";
                     link "https://b.example/y" "b"] in
  exists emitted,
    extract_backlinks (backlinks_page first_cell) = Ok (concat emitted)
    /\ Forall2 row_emits [backlinks_row first_cell] emitted.
Proof.
  intros first_cell.
  apply (backlinks_rows_emitted (backlinks_page first_cell)
           (mkLocated (el "h3" [txt "Backlinks"])
              (tl (backlinks_page first_cell))
              (txt "Backlinks"
               :: map fst (walk_all (tl (backlinks_page first_cell)))))
           (el "table"
               [el "tr" [th "Source"; th "Anchor"; th "Type"; th "Seen"];
                backlinks_row first_cell]));
    vm_compute; reflexivity.
Defined.

(** C10: for a row of at least 4 columns whose first cell holds exactly
    one anchor, the dict that is emitted has the same value under
    "source_url" and "target_url"; and the row's fourth column (like any
    further one) is not read: other cells in its place give the same
    dict. *)
Theorem single_anchor_same_urls (row c0 c1 c2 c3 : node) (rest : list node)
  (a : node) (d : json) :
  find_all row "td" = c0 :: c1 :: c2 :: c3 :: rest ->
  find_all c0 "a" = [a] ->
  backlink_of_row row = Ok (Some d) ->
  (exists u,
     field "source_url" d = Some (JStr u)
     /\ field "target_url" d = Some (JStr u))
  /\ forall c3' rest',
       backlink_of_cols (c0 :: c1 :: c2 :: c3' :: rest') = Ok (Some d).
Proof.
  intros Hcols Ha. unfold backlink_of_row. rewrite Hcols.
  unfold backlink_of_cols, find. rewrite Ha. cbn [hd_error last].
  destruct (bind (getitem a "href") _) as [u|e]; cbn [bind]; [|discriminate].
  intros H. inversion H; subst. split.
  - exists u. split; reflexivity.
  - intros c3' rest'. reflexivity.
Qed.

Lemma single_anchor_same_urls_witness :
  exists u,
    field "source_url"
      (backlink_dict "https://a.example/x" "https://a.example/x" "home" "follow")
      = Some (JStr u)
    /\ field "target_url"
         (backlink_dict "https://a.example/x" "https://a.example/x" "home"
            "follow")
       = Some (JStr u).
Proof.
  apply (single_anchor_same_urls
           (backlinks_row [link " https://a.example/x " "a"])
           (el "td" [link " https://a.example/x " "a"])
           (td " home ") (td "follow") (td "today") []
           (link " https://a.example/x " "a")
           (backlink_dict "https://a.example/x" "https://a.example/x" "home"
              "follow"));
    vm_compute; reflexivity.
Defined.

(** ** Pages where nothing is found *)

Lemma extract_metric_missing_label (soup : list node) (metric_name : string) :
  soup_find_string soup "p" metric_name = None ->
  extract_metric soup metric_name = "Not Found".
Proof. intros H. unfold extract_metric. now rewrite H. Qed.

Lemma metrics_not_found (soup : list node) :
  no_metric_sections soup = true ->
  JDict (map (fun kl => (fst kl, JStr (extract_metric soup (snd kl))))
             metric_labels) = not_found_metrics.
Proof.
  unfold no_metric_sections, not_found_metrics. rewrite forallb_forall.
  intros H. f_equal. apply map_ext_in. intros kl Hin. f_equal. f_equal.
  apply extract_metric_missing_label.
  specialize (H kl Hin). now destruct (soup_find_string soup "p" (snd kl)).
Qed.

Lemma collections_empty (soup : list node) :
  no_collection_sections soup = true ->
  extract_backlinks soup = Ok []
  /\ extract_top_pages soup = []
  /\ (forall domain, extract_competitors soup domain = (domain, []))
  /\ extract_top_keywords soup = [].
Proof.
  unfold no_collection_sections, extract_backlinks, extract_top_pages,
    extract_competitors, extract_top_keywords.
  destruct (soup_find_string soup "h3" "Backlinks"); [discriminate|].
  destruct (soup_find_string soup "h3" "Top Pages"); [discriminate|].
  destruct (soup_find_string soup "h3" "Main Organic Competitors");
    [discriminate|].
  destruct (soup_find_class soup "div" "table"); [discriminate|].
  intros _. repeat split; reflexivity.
Qed.

(** With [.string] taken as total: on a page where none of the nine
    label lookups finds anything, a report has all nine metrics "Not
    Found"; when none of the four collection lookups finds anything
    either, the extractor returns the report with these metrics and four
    empty lists, and the route answers 200. *)
Theorem bare_page_report
  (check_bracketed_netloc : string -> option string)
  (nfkc_adds_delimiter : string -> bool)
  (requests_get : string -> result response) (page : list node) :
  no_metric_sections page = true ->
  (forall domain payload,
     extract_report domain page = Ok payload ->
     field "metrics" payload = Some not_found_metrics)
  /\ (no_collection_sections page = true ->
      forall domain response,
        requests_get (target_url domain) = Ok response ->
        status_code response = 200%Z ->
        soup response = page ->
        get_seo_data requests_get domain = (empty_report domain, None)
        /\ forall args url,
             args_get "url" "" args = url ->
             url <> "" ->
             normalize_domain check_bracketed_netloc nfkc_adds_delimiter url
               = Ok domain ->
             snd (fetch_seo_data check_bracketed_netloc nfkc_adds_delimiter
                    requests_get args) = Ok (empty_report domain, 200%Z))
  /\ (forall doc metric_name,
        match soup_find_string doc "p" metric_name with
        | Some label =>
            is_tag "p" (tag label) = true
            /\ string_of (tag label) = Some metric_name
            /\ match find_next_sibling label "p" with
               | Some value =>
                   match find value "a" with
                   | Some a =>
                       extract_metric doc metric_name = PyStr.strip (text a)
                   | None => extract_metric doc metric_name = "Not Found"
                   end
               | None => extract_metric doc metric_name = "Not Found"
               end
        | None => extract_metric doc metric_name = "Not Found"
        end).
Proof.
  intros Hm. split; [|split].
  - intros domain payload E. apply extract_report_ok in E.
    destruct E as [metrics [backlinks [_ [-> ->]]]].
    rewrite <- (metrics_not_found page Hm). reflexivity.
  - intros Hc domain response Hget Hcode Hsoup.
    destruct (collections_empty page Hc) as [Hb [Hp [Hk Hw]]].
    assert (R : extract_report domain page = Ok (empty_report domain)).
    { unfold extract_report, empty_report.
      rewrite Hb, Hp, (Hk domain), Hw. cbn [bind].
      rewrite <- (metrics_not_found page Hm). reflexivity. }
    assert (G : get_seo_data requests_get domain = (empty_report domain, None)).
    { unfold get_seo_data. rewrite Hget. cbn [bind].
      rewrite Hcode, Hsoup, R. reflexivity. }
    split; [exact G|].
    intros args url Hargs Hurl Hnorm.
    rewrite (route_dispatch _ _ _ args url domain Hargs Hurl Hnorm), G.
    reflexivity.
  - intros doc metric_name. unfold extract_metric.
    destruct (soup_find_string doc "p" metric_name) as [label|] eqn:El;
      [|reflexivity].
    apply locate_holds in El. apply andb_prop in El. destruct El as [Hp Hs].
    split; [exact Hp|]. split.
    + unfold has_string in Hs.
      destruct (string_of (tag label)) as [t|]; [|discriminate].
      apply String.eqb_eq in Hs. now subst.
    + destruct (find_next_sibling label "p") as [value|]; [|reflexivity].
      destruct (find value "a"); reflexivity.
Qed.

(** With [.string] taken as total: a page where none of the nine label
    lookups finds anything can still hold a collection; here the keywords
    table gives one row of top keywords. *)
Lemma keywords_without_metric_sections :
  no_metric_sections keywords_page = true
  /\ field "top_keywords"
       (fst (get_seo_data (serves keywords_page) "example.com")) =
     Some (JList
             [JDict [("keyword", JStr "seo"); ("rank", JStr "1");
                     ("traffic_percentage", JStr "10%");
                     ("volume", JStr "900"); ("kd_percentage", JStr "35");
                     ("cpc", JStr "1.2"); ("num_results", JStr "5M");
                     ("search_trend", JStr "up")]]).
Proof. split; vm_compute; reflexivity. Qed.

Lemma bare_page_report_witness :
  let page := [el "h1" [txt "No data for this domain"]] in
  get_seo_data (serves page) "example.com" = (empty_report "example.com", None)
  /\ snd (fetch_seo_data no_bracket_check nfkc_plain (serves page)
            [("url", "www.example.com")]) =
     Ok (empty_report "example.com", 200%Z)
  /\ extract_metric visits_page "Visits" = "1.2K".
Proof.
  intros page.
  destruct (bare_page_report no_bracket_check nfkc_plain (serves page) page)
    as [_ [B M]].
  - vm_compute. reflexivity.
  - destruct (B eq_refl "example.com" (mkResponse 200 page)
                eq_refl eq_refl eq_refl) as [G R].
    split; [exact G|]. split.
    + apply (R [("url", "www.example.com")] "www.example.com").
      * reflexivity.
      * discriminate.
      * vm_compute. reflexivity.
    + specialize (M visits_page "Visits"). vm_compute in M.
      vm_compute. tauto.
Defined.

(** ** The [domain] field *)

Lemma competitors_loop_grows (rows : list node) :
  forall domain competitors,
    length competitors <= length (snd (competitors_loop rows domain competitors))
    /\ (length (snd (competitors_loop rows domain competitors))
          = length competitors ->
        fst (competitors_loop rows domain competitors) = domain).
Proof.
  induction rows as [|row rows IH]; intros domain competitors; simpl.
  - split; [lia | reflexivity].
  - destruct (find_all row "td") as [|c0 [|c1 [|c2 rest]]];
      try apply IH.
    match goal with |- context [competitors_loop rows ?d ?c] =>
      destruct (IH d c) as [Hle _] end.
    rewrite length_app in Hle. simpl in Hle. split; lia.
Qed.

(** The "domain" of a report is the argument of [get_seo_data] whenever
    the report lists no competitor. *)
Lemma domain_kept_without_competitors (domain : string) (soup : list node)
  (payload : json) :
  extract_report domain soup = Ok payload ->
  field "competitors" payload = Some (JList []) ->
  field "domain" payload = Some (JStr domain).
Proof.
  intros E. apply extract_report_ok in E.
  destruct E as [metrics [backlinks [_ [-> _]]]].
  cbn [field List.find fst snd String.eqb Ascii.eqb Bool.eqb].
  unfold extract_competitors.
  destruct (soup_find_string soup "h3" "Main Organic Competitors");
    [|reflexivity].
  destruct (find_next _ "table"); [|reflexivity].
  match goal with |- context [competitors_loop ?r domain []] =>
    destruct (competitors_loop_grows r domain []) as [_ H] end.
  intros Hc. injection Hc as Hnil. rewrite H; [reflexivity|].
  now rewrite Hnil.
Qed.

(** * Further properties *)

(** ** Strings: slices and searches *)

Module PyStrSlices.
Import PyStr PyStrFacts.

Lemma substring_0_0 (s : string) : substring 0 0 s = "".
Proof. destruct s; reflexivity. Qed.

Lemma substring_full (s : string) : substring 0 (String.length s) s = s.
Proof. induction s as [|c s IH]; simpl; [reflexivity | now rewrite IH]. Qed.

Lemma prefix_empty (s : string) : prefix "" s = true.
Proof. destruct s; reflexivity. Qed.

(** [s[len(a):]] is what follows [a] in [a + s]. *)
Lemma slice_from_append (a b : string) :
  slice_from (String.length a) (a ++ b) = b.
Proof.
  unfold slice_from. induction a as [|c a IH]; simpl.
  - rewrite Nat.sub_0_r. apply substring_full.
  - exact IH.
Qed.

(** A string that starts with [a] is [a] followed by its slice. *)
Lemma startswith_split (a s : string) :
  startswith a s = true -> s = a ++ slice_from (String.length a) s.
Proof.
  unfold startswith, slice_from. revert s.
  induction a as [|c a IH]; intros s H.
  - simpl. now rewrite Nat.sub_0_r, substring_full.
  - destruct s as [|d s]; [discriminate H|]. simpl in H.
    destruct (ascii_dec c d) as [->|]; [|discriminate H].
    simpl. f_equal. now apply IH.
Qed.

Lemma startswith_append (a b : string) : startswith a (a ++ b) = true.
Proof.
  unfold startswith. induction a as [|c a IH]; simpl.
  - apply prefix_empty.
  - destruct (ascii_dec c c); [exact IH | congruence].
Qed.

Lemma append_assoc (a b c : string) : (a ++ b) ++ c = a ++ b ++ c.
Proof. induction a as [|d a IH]; simpl; [reflexivity | now rewrite IH]. Qed.

Lemma remove_char_append (c : ascii) (a b : string) :
  remove_char c (a ++ b) = remove_char c a ++ remove_char c b.
Proof.
  induction a as [|d a IH]; simpl; [reflexivity|].
  destruct (Ascii.eqb c d); simpl; now rewrite IH.
Qed.

Lemma remove_char_absent (c : ascii) (s : string) :
  ~ In c (chars s) -> remove_char c s = s.
Proof.
  induction s as [|d s IH]; simpl; intros H; [reflexivity|].
  destruct (Ascii.eqb c d) eqn:E.
  - apply Ascii.eqb_eq in E. exfalso. apply H. now left.
  - f_equal. apply IH. tauto.
Qed.

Lemma remove_char_gone (c : ascii) (s : string) :
  ~ In c (chars (remove_char c s)).
Proof.
  induction s as [|d s IH]; simpl; [tauto|].
  destruct (Ascii.eqb c d) eqn:E; [exact IH|].
  simpl. intros [H|H]; [|now apply IH].
  subst. now rewrite Ascii.eqb_refl in E.
Qed.

(** The position of the first [c] in a non-empty string. *)
Lemma index_single (c a : ascii) (s : string) :
  index 0 (String c "") (String a s) =
  if Ascii.eqb c a then Some 0 else option_map S (index 0 (String c "") s).
Proof.
  cbn [index prefix].
  destruct (ascii_dec c a) as [->|Hne].
  - now rewrite Ascii.eqb_refl, prefix_empty.
  - apply Ascii.eqb_neq in Hne. rewrite Hne.
    destruct (index 0 (String c "") s); reflexivity.
Qed.

Lemma take_until_chars (p : ascii -> bool) (s : string) :
  incl (chars (take_until p s)) (chars s)
  /\ forall c, In c (chars (take_until p s)) -> p c = false.
Proof.
  induction s as [|d s [IHi IHp]]; simpl.
  - split; [apply incl_refl | intros c []].
  - destruct (p d) eqn:E; simpl.
    + split; [apply incl_nil_l | intros c []].
    + split.
      * apply incl_cons; [now left | now apply incl_tl].
      * intros c [<-|H]; [exact E | now apply IHp].
Qed.

(** The prefix before the first character that satisfies [p], when the
    string is written as that prefix and a rest. *)
Lemma take_until_append (p : ascii -> bool) (h rest : string) :
  (forall c, In c (chars h) -> p c = false) ->
  match rest with
  | String c _ => p c = true
  | EmptyString => True
  end ->
  take_until p (h ++ rest) = h.
Proof.
  intros Hh Hrest. induction h as [|d h IH]; simpl.
  - destruct rest as [|c rest]; [reflexivity | simpl; now rewrite Hrest].
  - rewrite (Hh d) by now left. f_equal. apply IH.
    intros c Hc. apply Hh. now right.
Qed.

End PyStrSlices.

(** ** The network location of a URL with a scheme *)

Section NetlocFacts.
Import PyStr PyStrFacts PyStrSlices UrlParse.

Local Abbreviation pos c s :=
  (match index 0 (String c "") s with
   | Some n => n
   | None => String.length s
   end).

Lemma pos_cons (c a : ascii) (s : string) :
  pos c (String a s) = if Ascii.eqb c a then 0 else S (pos c s).
Proof.
  rewrite index_single. destruct (Ascii.eqb c a); [reflexivity|].
  destruct (index 0 (String c "") s); reflexivity.
Qed.

Lemma pos_le (c : ascii) (s : string) : pos c s <= String.length s.
Proof.
  induction s as [|a s IH].
  - reflexivity.
  - rewrite pos_cons. destruct (Ascii.eqb c a); cbn [String.length]; lia.
Qed.

(** The earliest of the three delimiters is where [take_until] stops. *)
Lemma first_delimiter (s : string) :
  Nat.min (Nat.min (pos "/" s) (pos "?" s)) (pos "#" s) =
  String.length (take_until is_delimiter s).
Proof.
  induction s as [|a s IH].
  - reflexivity.
  - rewrite !pos_cons. cbn [take_until].
    replace (is_delimiter a)
      with (Ascii.eqb "/" a || Ascii.eqb "?" a || Ascii.eqb "#" a)
      by (unfold is_delimiter;
          now rewrite (Ascii.eqb_sym a "/"), (Ascii.eqb_sym a "?"),
            (Ascii.eqb_sym a "#")).
    destruct (Ascii.eqb "/" a), (Ascii.eqb "?" a), (Ascii.eqb "#" a);
      cbn [orb String.length]; lia.
Qed.

Lemma substring_take_until (p : ascii -> bool) (s : string) :
  substring 0 (String.length (take_until p s)) s = take_until p s.
Proof.
  induction s as [|a s IH]; [reflexivity|].
  cbn [take_until]. destruct (p a); [reflexivity|].
  cbn [String.length substring]. now rewrite IH.
Qed.

Lemma splitnetloc_step (c : ascii) (s : string) (delim : nat) :
  delim <= 2 + String.length s ->
  match find (String c "") 2 (String "/" (String "/" s)) with
  | Some wdelim => Nat.min delim wdelim
  | None => delim
  end = Nat.min delim (2 + pos c s).
Proof.
  intros H. unfold find. cbn [index].
  destruct (index 0 (String c "") s); lia.
Qed.

(** [_splitnetloc] on a URL that starts with two slashes: the network
    location is what follows them, up to the first of / ? # . *)
Lemma splitnetloc_take_until (s : string) :
  fst (_splitnetloc ("//" ++ s) 2) = take_until is_delimiter s.
Proof.
  unfold _splitnetloc, slice. cbn [fst fold_left].
  change ("//" ++ s) with (String "/" (String "/" s)).
  pose proof (pos_le "/" s). pose proof (pos_le "?" s).
  pose proof (pos_le "#" s).
  rewrite (splitnetloc_step "/") by (cbn [String.length]; lia).
  rewrite (splitnetloc_step "?") by (cbn [String.length]; lia).
  rewrite (splitnetloc_step "#") by (cbn [String.length]; lia).
  cbn [String.length].
  replace (Nat.min
             (Nat.min (Nat.min (S (S (String.length s))) (2 + pos "/" s))
                      (2 + pos "?" s))
             (2 + pos "#" s) - 2)
    with (String.length (take_until is_delimiter s))
    by (rewrite <- first_delimiter; lia).
  cbn [substring]. apply substring_take_until.
Qed.

End NetlocFacts.

(** ** The normaliser on URLs with and without a scheme *)

Section SchemeFacts.
Import PyStr PyStrFacts PyStrSlices UrlParse.

Variable check_bracketed_netloc : string -> option string.
Variable nfkc_adds_delimiter : string -> bool.

Local Abbreviation urlsplit :=
  (urlsplit_netloc check_bracketed_netloc nfkc_adds_delimiter).
Local Abbreviation normalize :=
  (normalize_domain check_bracketed_netloc nfkc_adds_delimiter).
Local Abbreviation checks :=
  (netloc_checks check_bracketed_netloc nfkc_adds_delimiter).

Lemma remove_unsafe_append (a b : string) :
  remove_unsafe (a ++ b) = remove_unsafe a ++ remove_unsafe b.
Proof.
  unfold remove_unsafe. cbn [fold_left unsafe_url_bytes_to_remove].
  now rewrite !remove_char_append.
Qed.

Lemma remove_unsafe_chars (s : string) :
  incl (chars (remove_unsafe s)) (chars s)
  /\ forall c, In c (chars (remove_unsafe s)) -> is_unsafe c = false.
Proof.
  unfold remove_unsafe. cbn [fold_left unsafe_url_bytes_to_remove]. split.
  - eapply incl_tran; [apply chars_remove_char|].
    eapply incl_tran; [apply chars_remove_char|]. apply chars_remove_char.
  - intros c Hc. unfold is_unsafe. cbn [existsb unsafe_url_bytes_to_remove].
    destruct (Ascii.eqb c (ascii_of_nat 9)) eqn:E9.
    { apply Ascii.eqb_eq in E9. subst. exfalso.
      apply chars_remove_char, chars_remove_char in Hc.
      exact (remove_char_gone _ _ Hc). }
    destruct (Ascii.eqb c (ascii_of_nat 13)) eqn:E13.
    { apply Ascii.eqb_eq in E13. subst. exfalso.
      apply chars_remove_char in Hc. exact (remove_char_gone _ _ Hc). }
    destruct (Ascii.eqb c (ascii_of_nat 10)) eqn:E10; [|reflexivity].
    apply Ascii.eqb_eq in E10. subst. exfalso.
    exact (remove_char_gone _ _ Hc).
Qed.

Lemma remove_unsafe_absent (s : string) :
  (forall c, In c (chars s) -> is_unsafe c = false) -> remove_unsafe s = s.
Proof.
  intros H. unfold remove_unsafe. cbn [fold_left unsafe_url_bytes_to_remove].
  assert (Hn : forall c, is_unsafe c = true -> ~ In c (chars s)).
  { intros c Hc Hin. rewrite (H c Hin) in Hc. discriminate. }
  rewrite (remove_char_absent (ascii_of_nat 9) s) by (apply Hn; reflexivity).
  rewrite (remove_char_absent (ascii_of_nat 13) s) by (apply Hn; reflexivity).
  apply remove_char_absent. apply Hn. reflexivity.
Qed.

(** After the scheme is split off, [urlsplit] is left with two slashes
    and the rest of the URL. *)
Lemma urlsplit_after_scheme (rest : string) :
  (bind
     (if slice_to 2 ("//" ++ rest) =? "//" then
        let netloc := fst (_splitnetloc ("//" ++ rest) 2) in
        if (contains "[" netloc && negb (contains "]" netloc))
           || (contains "]" netloc && negb (contains "[" netloc))
        then Raise (value_error "Invalid IPv6 URL")
        else if contains "[" netloc && contains "]" netloc
        then match check_bracketed_netloc netloc with
             | Some msg => Raise (value_error msg)
             | None => Ok netloc
             end
        else Ok netloc
      else Ok "")
     (fun netloc =>
        bind (_checknetloc nfkc_adds_delimiter netloc)
             (fun _ => Ok netloc)))
  = checks (take_until is_delimiter rest).
Proof.
  replace (slice_to 2 ("//" ++ rest)) with "//"
    by (unfold slice_to; cbn [append substring];
        now rewrite substring_0_0).
  cbn [String.eqb Ascii.eqb Bool.eqb]. cbv zeta.
  rewrite splitnetloc_take_until. reflexivity.
Qed.

(** [urlsplit] on an https URL: the network location is what follows
    "https://", without TAB, CR and LF, up to the first of / ? # ; it is
    returned when it passes the checks. *)
Lemma urlsplit_https (rest : string) :
  urlsplit ("https://" ++ rest) =
  checks (take_until is_delimiter (remove_unsafe rest)).
Proof.
  rewrite <- urlsplit_after_scheme.
  unfold urlsplit_netloc. cbv zeta.
  change (lstrip_with c0_control_or_space ("https://" ++ rest))
    with ("https://" ++ rest).
  change (fold_left (fun u b => remove_char b u) unsafe_url_bytes_to_remove
            ("https://" ++ rest))
    with (remove_unsafe ("https://" ++ rest)).
  rewrite remove_unsafe_append.
  change (remove_unsafe "https://") with "https://".
  set (r := remove_unsafe rest).
  change (find ":" 0 ("https://" ++ r)) with (Some 5).
  change ("https://" ++ r) with (String "h" ("ttps://" ++ r)).
  cbv iota beta.
  change (String "h" ("ttps://" ++ r)) with ("https://" ++ r).
  change (isascii_alpha "h") with true.
  change (chars (slice_to 5 ("https://" ++ r))) with (chars "https").
  change (forallb (fun c => contains c scheme_chars) (chars "https")) with true.
  cbn [andb].
  change (5 + 1) with (String.length "https:").
  change ("https://" ++ r) with ("https:" ++ ("//" ++ r)).
  rewrite slice_from_append. reflexivity.
Qed.

Lemma urlsplit_http (rest : string) :
  urlsplit ("http://" ++ rest) =
  checks (take_until is_delimiter (remove_unsafe rest)).
Proof.
  rewrite <- urlsplit_after_scheme.
  unfold urlsplit_netloc. cbv zeta.
  change (lstrip_with c0_control_or_space ("http://" ++ rest))
    with ("http://" ++ rest).
  change (fold_left (fun u b => remove_char b u) unsafe_url_bytes_to_remove
            ("http://" ++ rest))
    with (remove_unsafe ("http://" ++ rest)).
  rewrite remove_unsafe_append.
  change (remove_unsafe "http://") with "http://".
  set (r := remove_unsafe rest).
  change (find ":" 0 ("http://" ++ r)) with (Some 4).
  change ("http://" ++ r) with (String "h" ("ttp://" ++ r)).
  cbv iota beta.
  change (String "h" ("ttp://" ++ r)) with ("http://" ++ r).
  change (isascii_alpha "h") with true.
  change (chars (slice_to 4 ("http://" ++ r))) with (chars "http").
  change (forallb (fun c => contains c scheme_chars) (chars "http")) with true.
  cbn [andb].
  change (4 + 1) with (String.length "http:").
  change ("http://" ++ r) with ("http:" ++ ("//" ++ r)).
  rewrite slice_from_append. reflexivity.
Qed.

End SchemeFacts.

Section NormalizerMore.
Import PyStr PyStrFacts PyStrSlices UrlParse.

Variable check_bracketed_netloc : string -> option string.
Variable nfkc_adds_delimiter : string -> bool.

Local Abbreviation normalize :=
  (normalize_domain check_bracketed_netloc nfkc_adds_delimiter).
Local Abbreviation checks :=
  (netloc_checks check_bracketed_netloc nfkc_adds_delimiter).

(** The checks return the network location they are given, or raise. *)
Lemma netloc_checks_Ok (netloc n : string) :
  checks netloc = Ok n -> n = netloc.
Proof.
  unfold netloc_checks, _checknetloc, bind.
  repeat match goal with
         | |- context [match (if ?b then _ else _) with _ => _ end] =>
             destruct b
         | |- context [match check_bracketed_netloc ?x with _ => _ end] =>
             destruct (check_bracketed_netloc x)
         | |- context [if ?b then _ else _] => destruct b
         end;
    intros H; inversion H; reflexivity.
Qed.

Lemma plain_host_chars (h : string) :
  plain_host h = true ->
  isascii h = true
  /\ forall c, In c (chars h) ->
       is_delimiter c = false /\ is_unsafe c = false
       /\ c <> "["%char /\ c <> "]"%char.
Proof.
  unfold plain_host, isascii. rewrite !forallb_forall. intros H. split.
  - intros c Hc. specialize (H c Hc).
    now destruct (nat_of_ascii c <? 128)%nat.
  - intros c Hc. specialize (H c Hc).
    destruct (nat_of_ascii c <? 128)%nat, (is_delimiter c), (is_unsafe c),
      (Ascii.eqb c "[") eqn:Eo, (Ascii.eqb c "]") eqn:Ec;
      try discriminate H.
    apply Ascii.eqb_neq in Eo, Ec. tauto.
Qed.

Lemma netloc_checks_plain (h : string) :
  plain_host h = true -> checks h = Ok h.
Proof.
  intros H. destruct (plain_host_chars h H) as [Ha Hc].
  unfold netloc_checks, _checknetloc.
  rewrite (contains_false "[" h)
    by (intros Hin; destruct (Hc _ Hin) as [_ [_ [Ho _]]]; now apply Ho).
  rewrite (contains_false "]" h)
    by (intros Hin; destruct (Hc _ Hin) as [_ [_ [_ Ho]]]; now apply Ho).
  cbn [andb orb bind]. rewrite Ha, orb_true_r. reflexivity.
Qed.

Lemma delimiter_is_safe (c : ascii) :
  is_delimiter c = true -> is_unsafe c = false.
Proof.
  unfold is_delimiter. intros H.
  apply orb_prop in H. destruct H as [H|H];
    [apply orb_prop in H; destruct H as [H|H]|];
    apply Ascii.eqb_eq in H; subst; reflexivity.
Qed.

(** The network location of [h ++ rest] is [h] when [h] is plain and
    [rest] is empty or starts with a delimiter. *)
Lemma netloc_of_plain_host (h rest : string) :
  plain_host h = true ->
  starts_path rest = true ->
  checks (take_until is_delimiter (remove_unsafe (h ++ rest))) = Ok h.
Proof.
  intros Hh Hr. destruct (plain_host_chars h Hh) as [_ Hc].
  rewrite remove_unsafe_append.
  rewrite (remove_unsafe_absent h) by (intros c Hin; now apply (Hc c Hin)).
  rewrite take_until_append.
  - now apply netloc_checks_plain.
  - intros c Hin. now apply (Hc c Hin).
  - destruct rest as [|c rest]; [exact I|].
    change (String c rest) with (String c "" ++ rest).
    rewrite remove_unsafe_append.
    rewrite (remove_unsafe_absent (String c "")).
    + exact Hr.
    + intros d [<-|[]]. now apply delimiter_is_safe.
Qed.

Lemma has_scheme_https (rest : string) :
  has_scheme ("https://" ++ rest) = true.
Proof.
  unfold has_scheme. rewrite (startswith_append "https://" rest).
  apply orb_true_r.
Qed.

Lemma has_scheme_http (rest : string) :
  has_scheme ("http://" ++ rest) = true.
Proof.
  unfold has_scheme. now rewrite (startswith_append "http://" rest).
Qed.

(** [normalize_domain] in terms of the network location: on a URL with
    one of the two schemes, and on any other string. *)
Lemma normalize_domain_https (rest : string) :
  normalize ("https://" ++ rest) =
  (netloc <- checks (take_until is_delimiter (remove_unsafe rest)) ;;
   Ok (strip_www netloc)).
Proof.
  unfold normalize_domain. fold (has_scheme ("https://" ++ rest)).
  rewrite has_scheme_https. cbn [negb].
  now rewrite urlsplit_https.
Qed.

Lemma normalize_domain_http (rest : string) :
  normalize ("http://" ++ rest) =
  (netloc <- checks (take_until is_delimiter (remove_unsafe rest)) ;;
   Ok (strip_www netloc)).
Proof.
  unfold normalize_domain. fold (has_scheme ("http://" ++ rest)).
  rewrite has_scheme_http. cbn [negb].
  now rewrite urlsplit_http.
Qed.

Lemma normalize_domain_bare (url : string) :
  has_scheme url = false ->
  normalize url =
  (netloc <- checks (take_until is_delimiter (remove_unsafe url)) ;;
   Ok (strip_www netloc)).
Proof.
  intros H. unfold normalize_domain. fold (has_scheme url).
  rewrite H. cbn [negb]. now rewrite urlsplit_https.
Qed.

(** X1: a string with neither "http://" nor "https://" in front is
    normalised as the same string with "https://" put in front. *)
Theorem normalize_domain_default_scheme (url : string) :
  has_scheme url = false ->
  normalize_domain check_bracketed_netloc nfkc_adds_delimiter url =
  normalize_domain check_bracketed_netloc nfkc_adds_delimiter ("https://" ++ url).
Proof.
  intros H. now rewrite normalize_domain_https, normalize_domain_bare.
Qed.

(** Every string is normalised through the network location of some part
    of it: the string itself, or what follows its scheme. *)
Lemma normalize_domain_rest (url : string) :
  exists rest,
    incl (chars rest) (chars url)
    /\ normalize url =
       (netloc <- checks (take_until is_delimiter (remove_unsafe rest)) ;;
        Ok (strip_www netloc)).
Proof.
  destruct (has_scheme url) eqn:E.
  - unfold has_scheme in E. apply orb_prop in E. destruct E as [E|E];
      apply startswith_split in E; rewrite E;
      eexists; (split; [|first [apply normalize_domain_http
                              | apply normalize_domain_https]]);
      rewrite chars_append; apply incl_appr, incl_refl.
  - exists url. split; [apply incl_refl | now apply normalize_domain_bare].
Qed.

(** X2: the host [normalize_domain] returns is made of characters of its
    input, and holds none of / ? # TAB CR LF: no path, query or fragment
    is left in it. *)
Theorem normalize_domain_host_chars (url domain : string) :
  normalize_domain check_bracketed_netloc nfkc_adds_delimiter url = Ok domain ->
  forall c,
    In c (chars domain) ->
    In c (chars url) /\ is_delimiter c = false /\ is_unsafe c = false.
Proof.
  intros H c Hc.
  destruct (normalize_domain_rest url) as [rest [Hincl Hn]].
  rewrite Hn in H. clear Hn.
  destruct (checks (take_until is_delimiter (remove_unsafe rest)))
    as [netloc|e] eqn:E; [|discriminate H].
  apply netloc_checks_Ok in E. subst netloc.
  cbn [bind] in H. injection H as <-.
  assert (Hn : In c (chars (take_until is_delimiter (remove_unsafe rest)))).
  { revert Hc. unfold strip_www.
    destruct (startswith "www." _); [|trivial].
    apply chars_substring. }
  destruct (take_until_chars is_delimiter (remove_unsafe rest)) as [Hi Hd].
  destruct (remove_unsafe_chars rest) as [Hi' Hu].
  split; [apply Hincl, Hi', Hi, Hn|].
  split; [apply Hd, Hn | apply Hu, Hi, Hn].
Qed.

(** X3: for a plain host [h] (ASCII, none of / ? # [ ] TAB CR LF) and a
    [rest] that is empty or starts with / ? or #, the URL made of an
    optional "http://" or "https://", [h] and [rest] is normalised to [h]
    less one leading "www.": user info and port are kept, path, query and
    fragment are dropped. *)
Theorem normalize_domain_recovers_host (h rest : string) :
  plain_host h = true ->
  starts_path rest = true ->
  normalize_domain check_bracketed_netloc nfkc_adds_delimiter
    ("https://" ++ h ++ rest) = Ok (strip_www h)
  /\ normalize_domain check_bracketed_netloc nfkc_adds_delimiter
       ("http://" ++ h ++ rest) = Ok (strip_www h)
  /\ (has_scheme (h ++ rest) = false ->
      normalize_domain check_bracketed_netloc nfkc_adds_delimiter
        (h ++ rest) = Ok (strip_www h)).
Proof.
  intros Hh Hr.
  pose proof (netloc_of_plain_host h rest Hh Hr) as N.
  split; [|split].
  - now rewrite normalize_domain_https, N.
  - now rewrite normalize_domain_http, N.
  - intros Hs. now rewrite (normalize_domain_bare _ Hs), N.
Qed.

(** X4: exactly one leading "www." is removed: a plain host [h] is what
    "www." ++ [h] is normalised to, with or without a scheme and whatever
    [h] itself starts with. *)
Theorem normalize_domain_strips_one_www (h rest : string) :
  plain_host h = true ->
  starts_path rest = true ->
  normalize_domain check_bracketed_netloc nfkc_adds_delimiter
    ("www." ++ h ++ rest) = Ok h
  /\ normalize_domain check_bracketed_netloc nfkc_adds_delimiter
       ("https://www." ++ h ++ rest) = Ok h
  /\ normalize_domain check_bracketed_netloc nfkc_adds_delimiter
       ("http://www." ++ h ++ rest) = Ok h.
Proof.
  intros Hh Hr.
  assert (Hw : plain_host ("www." ++ h) = true).
  { unfold plain_host in *. rewrite chars_append, forallb_app, Hh.
    reflexivity. }
  assert (Hs : strip_www ("www." ++ h) = h).
  { unfold strip_www. rewrite (startswith_append "www." h).
    apply (slice_from_append "www." h). }
  destruct (normalize_domain_recovers_host ("www." ++ h) rest Hw Hr)
    as [A [B C]].
  rewrite Hs in A, B, C.
  change (("www." ++ h) ++ rest) with ("www." ++ h ++ rest) in A, B, C.
  split; [apply C; reflexivity|]. split; [exact A | exact B].
Qed.

(** X5: the scheme test is exact. A URL with any other scheme, or with
    the scheme in capitals, is taken as a host followed by a path: the
    result is the scheme name and a colon. *)
Theorem normalize_domain_other_scheme (scheme rest : string) :
  plain_host scheme = true ->
  has_scheme (scheme ++ "://" ++ rest) = false ->
  normalize_domain check_bracketed_netloc nfkc_adds_delimiter
    (scheme ++ "://" ++ rest) = Ok (strip_www (scheme ++ ":")).
Proof.
  intros Hp Hs.
  assert (Hh : plain_host (scheme ++ ":") = true).
  { unfold plain_host in *. rewrite chars_append, forallb_app, Hp.
    reflexivity. }
  destruct (normalize_domain_recovers_host (scheme ++ ":") ("//" ++ rest)
              Hh eq_refl) as [_ [_ C]].
  rewrite append_assoc in C. now apply C.
Qed.

End NormalizerMore.

Lemma normalize_domain_default_scheme_witness :
  normalize_domain no_bracket_check nfkc_plain "example.com:8080/a" =
  normalize_domain no_bracket_check nfkc_plain "https://example.com:8080/a".
Proof.
  apply (normalize_domain_default_scheme no_bracket_check nfkc_plain
           "example.com:8080/a").
  reflexivity.
Defined.

Lemma normalize_domain_host_chars_witness :
  In "e"%char (PyStr.chars "user@example.com/a?b#c")
  /\ is_delimiter "e" = false /\ is_unsafe "e" = false.
Proof.
  apply (normalize_domain_host_chars no_bracket_check nfkc_plain
           "user@example.com/a?b#c" "user@example.com").
  - vm_compute. reflexivity.
  - vm_compute. tauto.
Defined.

Lemma normalize_domain_recovers_host_witness :
  normalize_domain no_bracket_check nfkc_plain
    "https://user:pw@www.example.com:8080/p?q#f" = Ok "user:pw@www.example.com:8080"
  /\ normalize_domain no_bracket_check nfkc_plain
       "http://user:pw@www.example.com:8080/p?q#f" = Ok "user:pw@www.example.com:8080"
  /\ (has_scheme "user:pw@www.example.com:8080/p?q#f" = false ->
      normalize_domain no_bracket_check nfkc_plain
        "user:pw@www.example.com:8080/p?q#f" = Ok "user:pw@www.example.com:8080").
Proof.
  apply (normalize_domain_recovers_host no_bracket_check nfkc_plain
           "user:pw@www.example.com:8080" "/p?q#f");
    reflexivity.
Defined.

Lemma normalize_domain_strips_one_www_witness :
  normalize_domain no_bracket_check nfkc_plain "www.www.example.com/x"
    = Ok "www.example.com"
  /\ normalize_domain no_bracket_check nfkc_plain
       "https://www.www.example.com/x" = Ok "www.example.com"
  /\ normalize_domain no_bracket_check nfkc_plain
       "http://www.www.example.com/x" = Ok "www.example.com".
Proof.
  apply (normalize_domain_strips_one_www no_bracket_check nfkc_plain
           "www.example.com" "/x");
    reflexivity.
Defined.

Lemma normalize_domain_other_scheme_witness :
  normalize_domain no_bracket_check nfkc_plain "HTTP://example.com/x"
    = Ok "HTTP:".
Proof.
  apply (normalize_domain_other_scheme no_bracket_check nfkc_plain
           "HTTP" "example.com/x");
    reflexivity.
Defined.

(** ** The route: statuses and exceptions *)

Section RouteMore.

Variable check_bracketed_netloc : string -> option string.
Variable nfkc_adds_delimiter : string -> bool.
Variable requests_get : string -> result response.

Local Abbreviation normalize :=
  (normalize_domain check_bracketed_netloc nfkc_adds_delimiter).
Local Abbreviation route :=
  (fetch_seo_data check_bracketed_netloc nfkc_adds_delimiter requests_get).

(** X6: the host is not validated. A non-empty [url] that starts with
    / ? or # is normalised to the empty string, and the route calls
    [get_seo_data] with it and answers with what that call returns. *)
Theorem path_only_url_reaches_extractor (args : list (string * string))
  (url : string) :
  args_get "url" "" args = url ->
  url <> "" ->
  starts_path url = true ->
  fetch_seo_data check_bracketed_netloc nfkc_adds_delimiter requests_get args =
  ([CallNormalizeDomain url; CallGetSeoData ""],
   Ok (fst (get_seo_data requests_get ""),
       if has_key "error" (fst (get_seo_data requests_get ""))
       then 500%Z else 200%Z)).
Proof.
  intros Hargs Hurl Hpath.
  apply (route_dispatch _ _ _ args url "" Hargs Hurl).
  destruct (normalize_domain_recovers_host check_bracketed_netloc
              nfkc_adds_delimiter "" url eq_refl Hpath) as [_ [_ H]].
  apply H. destruct url as [|c rest]; [contradiction Hurl; reflexivity|].
  cbn [starts_path] in Hpath. unfold is_delimiter in Hpath.
  apply orb_prop in Hpath. destruct Hpath as [Hp|Hp];
    [apply orb_prop in Hp; destruct Hp as [Hp|Hp]|];
    apply Ascii.eqb_eq in Hp; subst; reflexivity.
Qed.

(** X7: the route answers 400 exactly when the value of [url] is empty,
    be the parameter absent or given with no value; no other request gets
    a 400. *)
Theorem route_400_iff_empty_url (args : list (string * string)) :
  (exists body,
     snd (fetch_seo_data check_bracketed_netloc nfkc_adds_delimiter
            requests_get args) = Ok (body, 400%Z))
  <-> args_get "url" "" args = "".
Proof.
  unfold fetch_seo_data. split.
  - intros [body H].
    destruct (args_get "url" "" args =? "") eqn:E;
      [now apply String.eqb_eq in E|].
    exfalso.
    destruct (normalize (args_get "url" "" args)) as [domain|e];
      [|discriminate H].
    destruct (get_seo_data requests_get domain) as [data o].
    cbn [snd] in H. destruct (has_key "error" data); discriminate H.
  - intros ->. eexists. reflexivity.
Qed.

(** X8: an exception leaves the route only from [normalize_domain]: it
    is a [ValueError], and [get_seo_data] has not been called. Whatever is
    raised inside [get_seo_data] is answered with a status. *)
Theorem route_raises_only_value_error (args : list (string * string))
  (e : exn) :
  snd (fetch_seo_data check_bracketed_netloc nfkc_adds_delimiter
         requests_get args) = Raise e ->
  exn_type e = ValueError
  /\ normalize_domain check_bracketed_netloc nfkc_adds_delimiter
       (args_get "url" "" args) = Raise e
  /\ fst (fetch_seo_data check_bracketed_netloc nfkc_adds_delimiter
            requests_get args) = [CallNormalizeDomain (args_get "url" "" args)].
Proof.
  unfold fetch_seo_data.
  destruct (args_get "url" "" args =? ""); [discriminate|].
  destruct (normalize (args_get "url" "" args)) as [domain|e'] eqn:E.
  - destruct (get_seo_data requests_get domain) as [data o].
    cbn [snd]. destruct (has_key "error" data); discriminate.
  - cbn [snd fst]. intros H. injection H as ->.
    split; [|split; reflexivity].
    exact (normalize_domain_raises _ _ _ _ E).
Qed.

(** X9: when [requests.get] raises, nothing is parsed: the payload is
    {"error": "Request failed: <str(e)>"} for a [RequestException] and
    {"error": "An error occurred: <str(e)>"} for any other exception, and
    the route answers it with 500. *)
Theorem request_failure_payload (domain : string) (e : exn) :
  requests_get (target_url domain) = Raise e ->
  let payload :=
    JDict [("error",
            JStr (match exn_type e with
                  | RequestException => "Request failed: "
                  | _ => "An error occurred: "
                  end ++ exn_str e))] in
  get_seo_data requests_get domain = (payload, None)
  /\ forall args url,
       args_get "url" "" args = url ->
       url <> "" ->
       normalize_domain check_bracketed_netloc nfkc_adds_delimiter url
         = Ok domain ->
       snd (fetch_seo_data check_bracketed_netloc nfkc_adds_delimiter
              requests_get args) = Ok (payload, 500%Z).
Proof.
  intros Hget payload.
  assert (G : get_seo_data requests_get domain = (payload, None)).
  { unfold get_seo_data. rewrite Hget. cbn [bind].
    subst payload. destruct (exn_type e); reflexivity. }
  split; [exact G|].
  intros args url Hargs Hurl Hnorm.
  rewrite (route_dispatch _ _ _ args url domain Hargs Hurl Hnorm), G.
  reflexivity.
Qed.

End RouteMore.

Lemma path_only_url_reaches_extractor_witness :
  fetch_seo_data no_bracket_check nfkc_plain
    (fun _ => Ok (mkResponse 404 [])) [("url", "/about?x=1")] =
  ([CallNormalizeDomain "/about?x=1"; CallGetSeoData ""],
   Ok (JDict [("error",
               JStr "Failed to retrieve the page. Status Code: 404")],
       500%Z)).
Proof.
  apply (path_only_url_reaches_extractor no_bracket_check nfkc_plain
           (fun _ => Ok (mkResponse 404 [])) [("url", "/about?x=1")]
           "/about?x=1");
    [reflexivity | discriminate | reflexivity].
Defined.

Lemma route_raises_only_value_error_witness :
  exn_type (value_error "Invalid IPv6 URL") = ValueError
  /\ normalize_domain no_bracket_check nfkc_plain
       (args_get "url" "" [("url", "a]b")]) =
     Raise (value_error "Invalid IPv6 URL")
  /\ fst (fetch_seo_data no_bracket_check nfkc_plain (serves visits_page)
            [("url", "a]b")]) =
     [CallNormalizeDomain (args_get "url" "" [("url", "a]b")])].
Proof.
  apply (route_raises_only_value_error no_bracket_check nfkc_plain
           (serves visits_page) [("url", "a]b")]
           (value_error "Invalid IPv6 URL")).
  vm_compute. reflexivity.
Defined.

Lemma request_failure_payload_witness :
  let requests_get :=
    fun _ : string => Raise (mkExn RequestException "connection timed out") in
  get_seo_data requests_get "example.com" =
    (JDict [("error", JStr "Request failed: connection timed out")], None)
  /\ snd (fetch_seo_data no_bracket_check nfkc_plain requests_get
            [("url", "example.com")]) =
     Ok (JDict [("error", JStr "Request failed: connection timed out")],
         500%Z).
Proof.
  intros requests_get.
  destruct (request_failure_payload no_bracket_check nfkc_plain requests_get
              "example.com" (mkExn RequestException "connection timed out")
              eq_refl) as [G R].
  split; [exact G|].
  apply (R [("url", "example.com")] "example.com");
    [reflexivity | discriminate | vm_compute; reflexivity].
Defined.

(** ** The report: layout, sizes and the [domain] field *)

Section StripFacts.
Import PyStr.

Variable p : ascii -> bool.

Lemma rstrip_with_cons (c : ascii) (s : string) :
  rstrip_with p (String c s) =
  match rstrip_with p s with
  | EmptyString => if p c then EmptyString else String c EmptyString
  | r => String c r
  end.
Proof. reflexivity. Qed.

Lemma rstrip_with_idempotent (s : string) :
  rstrip_with p (rstrip_with p s) = rstrip_with p s.
Proof.
  induction s as [|c s IH]; [reflexivity|].
  rewrite rstrip_with_cons. destruct (rstrip_with p s) as [|d r] eqn:E.
  - destruct (p c) eqn:Ec; [reflexivity|].
    rewrite rstrip_with_cons. cbn [rstrip_with]. now rewrite Ec.
  - rewrite rstrip_with_cons, IH. reflexivity.
Qed.

(** What [lstrip] returns does not start with a stripped character. *)
Lemma lstrip_with_head (s : string) :
  match lstrip_with p s with
  | String c _ => p c = false
  | EmptyString => True
  end.
Proof.
  induction s as [|c s IH]; [exact I|].
  cbn [lstrip_with]. destruct (p c) eqn:E; [exact IH | exact E].
Qed.

Lemma lstrip_rstrip (t : string) :
  match t with
  | String c _ => p c = false
  | EmptyString => True
  end ->
  lstrip_with p (rstrip_with p t) = rstrip_with p t.
Proof.
  destruct t as [|c t]; [reflexivity|]. intros Hc.
  rewrite rstrip_with_cons. destruct (rstrip_with p t); rewrite ?Hc;
    cbn [lstrip_with]; now rewrite Hc.
Qed.

End StripFacts.

(** [s.strip().strip() == s.strip()] *)
Lemma strip_trimmed (s : string) : trimmed (PyStr.strip s) = true.
Proof.
  unfold trimmed. apply String.eqb_eq. unfold PyStr.strip at 1.
  unfold PyStr.strip.
  rewrite lstrip_rstrip by apply lstrip_with_head.
  apply rstrip_with_idempotent.
Qed.

Lemma is_row_intro (row_keys : list string) (items : list (string * json)) :
  map fst items = row_keys ->
  Forall (fun v => exists s, v = JStr s /\ trimmed s = true) (map snd items) ->
  is_row row_keys (JDict items) = true.
Proof.
  intros Hk Hv. unfold is_row. rewrite Hk.
  destruct (list_eq_dec string_dec row_keys row_keys); [|congruence].
  cbn [andb]. apply forallb_forall. intros v Hin.
  rewrite Forall_forall in Hv. destruct (Hv v Hin) as [s [-> Hs]]. exact Hs.
Qed.

Ltac row_shape :=
  apply is_row_intro;
  [reflexivity
  | cbn [map snd];
    repeat (constructor;
            [eexists; split;
             [reflexivity
             | first [apply strip_trimmed | reflexivity | eassumption]]|]);
    constructor].

Lemma extract_metric_trimmed (soup : list node) (metric_name : string) :
  trimmed (extract_metric soup metric_name) = true.
Proof.
  unfold extract_metric.
  destruct (soup_find_string soup "p" metric_name) as [section|];
    [|reflexivity].
  destruct (find_next_sibling section "p") as [value|]; [|reflexivity].
  destruct (find value "a"); [apply strip_trimmed | reflexivity].
Qed.

Lemma keyword_of_row_shape (row : node) (d : json) :
  keyword_of_row row = Some d -> is_row keyword_keys d = true.
Proof.
  unfold keyword_of_row.
  destruct (find_all row "td") as [|c0 [|c1 [|c2 [|c3 [|c4 [|c5 [|c6 [|c7 r]]]]]]]];
    try discriminate.
  intros H. injection H as <-. row_shape.
Qed.

Lemma page_of_row_shape (row : node) (d : json) :
  page_of_row row = Some d -> is_row page_keys d = true.
Proof.
  unfold page_of_row.
  destruct (find_all row "td") as [|c0 [|c1 [|c2 r]]]; try discriminate.
  intros H. injection H as <-. destruct (find c0 "a"); row_shape.
Qed.

Lemma href_stripped_trimmed (a : node) (s : string) :
  href_stripped a = Ok s -> trimmed s = true.
Proof.
  unfold href_stripped.
  destruct (getitem a "href") as [[v|l]|e]; cbn [bind strip_value];
    try discriminate.
  intros H. injection H as <-. apply strip_trimmed.
Qed.

Lemma backlink_of_row_shape (row : node) (d : json) :
  backlink_of_row row = Ok (Some d) -> is_row backlink_keys d = true.
Proof.
  unfold backlink_of_row, backlink_of_cols.
  destruct (find_all row "td") as [|c0 [|c1 [|c2 [|c3 r]]]]; try discriminate.
  assert (Hs : exists s,
             match find c0 "a" with
             | Some a => href_stripped a
             | None => Ok "N/A"
             end = s
             /\ forall u, s = Ok u -> trimmed u = true).
  { eexists. split; [reflexivity|]. intros u.
    destruct (find c0 "a"); [apply href_stripped_trimmed|].
    intros H. injection H as <-. reflexivity. }
  assert (Ht : exists t,
             match find_all c0 "a" with
             | a :: more => href_stripped (last more a)
             | [] => Ok "N/A"
             end = t
             /\ forall u, t = Ok u -> trimmed u = true).
  { eexists. split; [reflexivity|]. intros u.
    destruct (find_all c0 "a"); [|apply href_stripped_trimmed].
    intros H. injection H as <-. reflexivity. }
  destruct Hs as [s [Es Hs]]. destruct Ht as [t [Et Ht]].
  unfold href_stripped in Es, Et. rewrite Es, Et.
  destruct s as [u|e]; cbn [bind]; [|discriminate].
  destruct t as [w|e]; cbn [bind]; [|discriminate].
  specialize (Hs u eq_refl). specialize (Ht w eq_refl).
  intros H. injection H as <-. row_shape.
Qed.

Lemma backlinks_loop_shape (rows : list node) :
  forall acc backlinks,
    forallb (is_row backlink_keys) acc = true ->
    backlinks_loop rows acc = Ok backlinks ->
    forallb (is_row backlink_keys) backlinks = true.
Proof.
  induction rows as [|row rows IH]; intros acc backlinks Hacc; cbn [backlinks_loop].
  - intros H. now injection H as <-.
  - destruct (backlink_of_row row) as [[d|]|e] eqn:E; cbn [bind];
      [| now apply IH | discriminate].
    apply IH. rewrite forallb_app, Hacc. cbn [forallb].
    now rewrite (backlink_of_row_shape row d E).
Qed.

Lemma competitors_loop_shape (rows : list node) :
  forall domain acc,
    forallb (is_row competitor_keys) acc = true ->
    forallb (is_row competitor_keys)
            (snd (competitors_loop rows domain acc)) = true.
Proof.
  induction rows as [|row rows IH]; intros domain acc Hacc;
    cbn [competitors_loop]; [exact Hacc|].
  destruct (find_all row "td") as [|c0 [|c1 [|c2 r]]]; try now apply IH.
  apply IH. rewrite forallb_app, Hacc. cbn [forallb]. rewrite andb_true_r.
  row_shape.
Qed.

Lemma emitted_rows_shape (row_keys : list string) (f : node -> option json)
  (rows : list node) :
  (forall row d, f row = Some d -> is_row row_keys d = true) ->
  forallb (is_row row_keys)
          (flat_map (fun row => match f row with
                                | Some d => [d]
                                | None => []
                                end) rows) = true.
Proof.
  intros Hf. apply forallb_forall. intros d Hin.
  apply in_flat_map in Hin. destruct Hin as [row [_ Hd]].
  destruct (f row) as [d'|] eqn:E; [|destruct Hd].
  destruct Hd as [<-|[]]. exact (Hf row d' E).
Qed.

(** X11: every report [get_seo_data] builds has the same layout: the six
    keys; a string under "domain"; nine metrics; and in each collection
    only dicts with the keys of that collection. Every value of the
    metrics and of the rows is a string with no whitespace at either
    end. *)
Theorem report_conforms (domain : string) (soup : list node) (payload : json) :
  extract_report domain soup = Ok payload ->
  conforms payload = true.
Proof.
  intros E. apply extract_report_ok in E.
  destruct E as [metrics [backlinks [Hb [-> ->]]]].
  unfold conforms, field_is.
  cbn [keys field List.find map fst snd String.eqb Ascii.eqb Bool.eqb].
  assert (K : (if list_eq_dec string_dec report_keys report_keys
               then true else false) = true)
    by (destruct (list_eq_dec string_dec report_keys report_keys); congruence).
  change ["domain"; "metrics"; "top_keywords"; "backlinks"; "competitors";
          "top_pages"] with report_keys.
  rewrite K. cbn [andb].
  assert (M : is_row (map fst metric_labels)
                (JDict (map (fun kl => (fst kl,
                                        JStr (extract_metric soup (snd kl))))
                            metric_labels)) = true).
  { apply is_row_intro; [reflexivity|].
    cbn [map snd fst metric_labels].
    repeat (constructor;
            [eexists; split; [reflexivity | apply extract_metric_trimmed]|]).
    constructor. }
  rewrite M. cbn [andb].
  assert (T : is_rows keyword_keys (JList (extract_top_keywords soup)) = true).
  { unfold is_rows, extract_top_keywords.
    destruct (soup_find_class soup "div" "table"); [|reflexivity].
    apply emitted_rows_shape, keyword_of_row_shape. }
  assert (B : is_rows backlink_keys (JList backlinks) = true).
  { unfold is_rows. revert Hb. unfold extract_backlinks.
    destruct (soup_find_string soup "h3" "Backlinks") as [sec|];
      [|intros H; now injection H as <-].
    destruct (find_next sec "table");
      [|intros H; now injection H as <-].
    now apply backlinks_loop_shape. }
  assert (C : is_rows competitor_keys
                (JList (snd (extract_competitors soup domain))) = true).
  { unfold is_rows, extract_competitors.
    destruct (soup_find_string soup "h3" "Main Organic Competitors") as [sec|];
      [|reflexivity].
    destruct (find_next sec "table"); [|reflexivity].
    now apply competitors_loop_shape. }
  assert (P : is_rows page_keys (JList (extract_top_pages soup)) = true).
  { unfold is_rows, extract_top_pages.
    destruct (soup_find_string soup "h3" "Top Pages") as [sec|];
      [|reflexivity].
    destruct (find_next sec "table"); [|reflexivity].
    apply emitted_rows_shape, page_of_row_shape. }
  now rewrite T, B, C, P.
Qed.

Lemma report_conforms_witness :
  exists payload,
    extract_report "example.com"
      (competitors_page
       ++ backlinks_page [link " https://a.example/x " "a"]
       ++ keywords_page ++ visits_page)%list = Ok payload
    /\ conforms payload = true.
Proof.
  eexists. split; [vm_compute; reflexivity|].
  apply (report_conforms "example.com"
           (competitors_page
            ++ backlinks_page [link " https://a.example/x " "a"]
            ++ keywords_page ++ visits_page)%list).
  vm_compute. reflexivity.
Defined.

(** After the competitors loop, either nothing was appended and [domain]
    is unchanged, or [domain] is the "domain" of the last dict. *)
Lemma competitors_loop_last (rows : list node) :
  forall domain acc,
    competitors_loop rows domain acc = (domain, acc)
    \/ exists pre c,
         snd (competitors_loop rows domain acc) = (pre ++ [c])%list
         /\ field "domain" c =
            Some (JStr (fst (competitors_loop rows domain acc))).
Proof.
  induction rows as [|row rows IH]; intros domain acc; cbn [competitors_loop].
  - now left.
  - destruct (find_all row "td") as [|c0 [|c1 [|c2 r]]]; try apply IH.
    right.
    match goal with |- context [competitors_loop rows ?d ?a] =>
      destruct (IH d a) as [E|[pre [c [E F]]]] end.
    + rewrite E. cbn [fst snd]. eexists. eexists.
      split; [reflexivity | reflexivity].
    + exists pre, c. split; assumption.
Qed.

(** X10: whenever a report lists competitors, its "domain" is the
    "domain" of the last of them, not the argument of [get_seo_data]. *)
Theorem report_domain_is_last_competitor (domain : string) (soup : list node)
  (payload : json) (competitors : list json) :
  extract_report domain soup = Ok payload ->
  field "competitors" payload = Some (JList competitors) ->
  competitors <> [] ->
  forall default,
    field "domain" payload = field "domain" (last competitors default).
Proof.
  intros E. apply extract_report_ok in E.
  destruct E as [metrics [backlinks [_ [-> _]]]].
  cbn [field List.find fst snd String.eqb Ascii.eqb Bool.eqb].
  intros H. injection H as <-. intros Hne default.
  revert Hne. unfold extract_competitors.
  destruct (soup_find_string soup "h3" "Main Organic Competitors") as [sec|];
    [|intros H; now contradiction H].
  destruct (find_next sec "table") as [table|];
    [|intros H; now contradiction H].
  destruct (competitors_loop_last (tl (find_all table "tr")) domain [])
    as [E|[pre [c [E F]]]].
  - rewrite E. intros H. now contradiction H.
  - intros _. rewrite E, last_last. now rewrite F.
Qed.

Lemma report_domain_is_last_competitor_witness :
  field "domain" (fst (get_seo_data (serves competitors_page) "example.com")) =
  field "domain"
    (last [JDict [("domain", JStr "rival.com");
                  ("common_keywords", JStr "12");
                  ("competition_level", JStr "High")]] (JStr "")).
Proof.
  apply (report_domain_is_last_competitor "example.com" competitors_page
           (fst (get_seo_data (serves competitors_page) "example.com"))
           [JDict [("domain", JStr "rival.com");
                   ("common_keywords", JStr "12");
                   ("competition_level", JStr "High")]]).
  - vm_compute. reflexivity.
  - vm_compute. reflexivity.
  - discriminate.
Defined.

(** ** How many rows a table gives *)

Lemma emitted_rows_count (f : node -> option json) (enough : node -> bool)
  (rows : list node) :
  (forall row, enough row = true <-> f row <> None) ->
  length (flat_map (fun row => match f row with
                               | Some d => [d]
                               | None => []
                               end) rows) =
  length (filter enough rows).
Proof.
  intros Hf. induction rows as [|row rows IH]; [reflexivity|].
  cbn [flat_map filter]. rewrite length_app, IH.
  destruct (f row) as [d|] eqn:E.
  - replace (enough row) with true; [reflexivity|].
    symmetry. apply Hf. rewrite E. discriminate.
  - destruct (enough row) eqn:En; [|reflexivity].
    exfalso. now apply (proj1 (Hf row)).
Qed.

Lemma keyword_of_row_enough (row : node) :
  has_columns 8 row = true <-> keyword_of_row row <> None.
Proof.
  unfold has_columns, keyword_of_row.
  destruct (find_all row "td") as [|c0 [|c1 [|c2 [|c3 [|c4 [|c5 [|c6 [|c7 r]]]]]]]];
    cbn [length Nat.leb]; split; intros H; congruence.
Qed.

Lemma page_of_row_enough (row : node) :
  has_columns 3 row = true <-> page_of_row row <> None.
Proof.
  unfold has_columns, page_of_row.
  destruct (find_all row "td") as [|c0 [|c1 [|c2 r]]];
    cbn [length Nat.leb]; split; intros H; congruence.
Qed.

Lemma competitors_loop_count (rows : list node) :
  forall domain acc,
    length (snd (competitors_loop rows domain acc)) =
    length acc + length (filter (has_columns 3) rows).
Proof.
  induction rows as [|row rows IH]; intros domain acc;
    cbn [competitors_loop filter].
  - cbn [snd length]. lia.
  - unfold has_columns at 1.
    destruct (find_all row "td") as [|c0 [|c1 [|c2 r]]];
      cbn [length Nat.leb]; rewrite IH; try reflexivity.
    rewrite length_app. cbn [length]. lia.
Qed.

Lemma backlink_of_row_enough (row : node) (r : option json) :
  backlink_of_row row = Ok r ->
  has_columns 4 row = true <-> r <> None.
Proof.
  unfold has_columns, backlink_of_row, backlink_of_cols.
  destruct (find_all row "td") as [|c0 [|c1 [|c2 [|c3 rest]]]];
    cbn [length Nat.leb];
    try (intros H; injection H as <-; split; intros H; congruence).
  destruct (match find c0 "a" with
            | Some a => _
            | None => _
            end) as [s|e]; cbn [bind]; [|discriminate].
  destruct (match find_all c0 "a" with
            | [] => _
            | a :: more => _
            end) as [t|e]; cbn [bind]; [|discriminate].
  intros H. injection H as <-. split; intros H; congruence.
Qed.

Lemma backlinks_loop_count (rows : list node) :
  forall acc backlinks,
    backlinks_loop rows acc = Ok backlinks ->
    length backlinks = length acc + length (filter (has_columns 4) rows).
Proof.
  induction rows as [|row rows IH]; intros acc backlinks;
    cbn [backlinks_loop filter].
  - intros H. injection H as <-. cbn [length]. lia.
  - destruct (backlink_of_row row) as [r|e] eqn:E; cbn [bind];
      [|discriminate].
    pose proof (backlink_of_row_enough row r E) as Hen.
    intros H. apply IH in H. rewrite H.
    destruct r as [d|].
    + replace (has_columns 4 row) with true
        by (symmetry; apply Hen; discriminate).
      rewrite length_app. cbn [length]. lia.
    + destruct (has_columns 4 row); [|reflexivity].
      exfalso. now apply (proj1 Hen).
Qed.

(** X12: each collection has one entry per row of its table, the first
    row left aside, that has enough [td] cells, 8 for the top keywords, 3
    for the top pages and the competitors, 4 for the backlinks, and none
    for any other row. *)
Theorem collection_sizes (soup : list node) :
  (forall keyword_table,
     soup_find_class soup "div" "table" = Some keyword_table ->
     length (extract_top_keywords soup) =
     length (filter (has_columns 8) (data_rows (tag keyword_table))))
  /\ (forall section table,
        soup_find_string soup "h3" "Top Pages" = Some section ->
        find_next section "table" = Some table ->
        length (extract_top_pages soup) =
        length (filter (has_columns 3) (data_rows table)))
  /\ (forall section table domain,
        soup_find_string soup "h3" "Main Organic Competitors" = Some section ->
        find_next section "table" = Some table ->
        length (snd (extract_competitors soup domain)) =
        length (filter (has_columns 3) (data_rows table)))
  /\ (forall section table backlinks,
        soup_find_string soup "h3" "Backlinks" = Some section ->
        find_next section "table" = Some table ->
        extract_backlinks soup = Ok backlinks ->
        length backlinks =
        length (filter (has_columns 4) (data_rows table))).
Proof.
  split; [|split; [|split]].
  - intros t Ht. unfold extract_top_keywords. rewrite Ht.
    apply emitted_rows_count, keyword_of_row_enough.
  - intros sec table Hs Ht. unfold extract_top_pages. rewrite Hs, Ht.
    apply emitted_rows_count, page_of_row_enough.
  - intros sec table domain Hs Ht. unfold extract_competitors.
    rewrite Hs, Ht. now rewrite competitors_loop_count.
  - intros sec table backlinks Hs Ht. unfold extract_backlinks.
    rewrite Hs, Ht. intros H. now apply backlinks_loop_count in H.
Qed.

Lemma collection_sizes_witness :
  length (extract_top_keywords
            [Tag "div" [("class", AList ["table"])]
               [el "tr" [th "Keyword"];
                el "tr" [td "a"; td "b"; td "c"];
                el "tr" [td "seo"; td "1"; td "10%"; td "900"; td "35";
                         td "1.2"; td "5M"; td "up"]]]) = 1.
Proof.
  destruct (collection_sizes
              [Tag "div" [("class", AList ["table"])]
                 [el "tr" [th "Keyword"];
                  el "tr" [td "a"; td "b"; td "c"];
                  el "tr" [td "seo"; td "1"; td "10%"; td "900"; td "35";
                           td "1.2"; td "5M"; td "up"]]]) as [K _].
  rewrite (K _ eq_refl). reflexivity.
Defined.

(** ** Hosts the normaliser rejects *)

Section BracketFacts.
Import PyStr PyStrFacts PyStrSlices UrlParse.

Variable check_bracketed_netloc : string -> option string.
Variable nfkc_adds_delimiter : string -> bool.

Local Abbreviation checks :=
  (netloc_checks check_bracketed_netloc nfkc_adds_delimiter).

(** The network location of [h ++ rest] is [h] when [h] has none of
    / ? # TAB CR LF and [rest] is empty or starts with a delimiter. *)
Lemma netloc_cut (h rest : string) :
  forallb (fun c => negb (is_delimiter c) && negb (is_unsafe c)) (chars h)
    = true ->
  starts_path rest = true ->
  take_until is_delimiter (remove_unsafe (h ++ rest)) = h.
Proof.
  intros Hh Hr. rewrite forallb_forall in Hh.
  assert (Hc : forall c, In c (chars h) ->
                 is_delimiter c = false /\ is_unsafe c = false).
  { intros c Hin. specialize (Hh c Hin).
    now destruct (is_delimiter c), (is_unsafe c). }
  rewrite remove_unsafe_append.
  rewrite (remove_unsafe_absent h) by (intros c Hin; now apply (Hc c Hin)).
  apply take_until_append.
  - intros c Hin. now apply (Hc c Hin).
  - destruct rest as [|c rest]; [exact I|].
    change (String c rest) with (String c "" ++ rest).
    rewrite remove_unsafe_append.
    rewrite (remove_unsafe_absent (String c "")).
    + exact Hr.
    + intros d [<-|[]]. now apply delimiter_is_safe.
Qed.

(** X13: a square bracket without its partner in the host part makes
    [normalize_domain] raise [ValueError("Invalid IPv6 URL")], with or
    without a scheme in front; the route then raises it too and makes no
    request. Brackets after the first / ? or # do not count. *)
Theorem unmatched_bracket_raises (h rest : string) :
  forallb (fun c => negb (is_delimiter c) && negb (is_unsafe c)) (chars h)
    = true ->
  starts_path rest = true ->
  xorb (contains "[" h) (contains "]" h) = true ->
  let raised : result string := Raise (value_error "Invalid IPv6 URL") in
  normalize_domain check_bracketed_netloc nfkc_adds_delimiter
    ("https://" ++ h ++ rest) = raised
  /\ normalize_domain check_bracketed_netloc nfkc_adds_delimiter
       ("http://" ++ h ++ rest) = raised
  /\ (has_scheme (h ++ rest) = false ->
      normalize_domain check_bracketed_netloc nfkc_adds_delimiter
        (h ++ rest) = raised
      /\ forall requests_get args,
           args_get "url" "" args = h ++ rest ->
           fetch_seo_data check_bracketed_netloc nfkc_adds_delimiter
             requests_get args =
           ([CallNormalizeDomain (h ++ rest)],
            Raise (value_error "Invalid IPv6 URL"))).
Proof.
  intros Hh Hr Hx raised.
  pose proof (netloc_cut h rest Hh Hr) as N.
  assert (C : checks h = Raise (value_error "Invalid IPv6 URL")).
  { unfold netloc_checks.
    destruct (contains "[" h), (contains "]" h); try discriminate Hx;
      reflexivity. }
  split; [|split].
  - now rewrite normalize_domain_https, N, C.
  - now rewrite normalize_domain_http, N, C.
  - intros Hs.
    assert (R : normalize_domain check_bracketed_netloc nfkc_adds_delimiter
                  (h ++ rest) = raised)
      by now rewrite (normalize_domain_bare _ _ _ Hs), N, C.
    split; [exact R|].
    intros requests_get args Hargs.
    apply (route_raises _ _ _ args (h ++ rest) _ Hargs); [|exact R].
    intros He. rewrite He in R. vm_compute in R. discriminate R.
Qed.

End BracketFacts.

Lemma unmatched_bracket_raises_witness :
  normalize_domain no_bracket_check nfkc_plain "https://exa[mple.com/a]"
    = Raise (value_error "Invalid IPv6 URL")
  /\ fetch_seo_data no_bracket_check nfkc_plain (serves visits_page)
       [("url", "exa[mple.com/a]")] =
     ([CallNormalizeDomain "exa[mple.com/a]"],
      Raise (value_error "Invalid IPv6 URL")).
Proof.
  destruct (unmatched_bracket_raises no_bracket_check nfkc_plain
              "exa[mple.com" "/a]" eq_refl eq_refl eq_refl) as [A [_ B]].
  split; [exact A|].
  destruct (B eq_refl) as [_ R].
  apply (R (serves visits_page) [("url", "exa[mple.com/a]")]). reflexivity.
Defined.

(** * The recursion limit of [.string] *)

(** ** Lookups, first matches and absence *)










(** ** Within the limit, the two models agree *)

Section Agreement.

Variable frames : nat.
Variable recursion_error_str : string.


(** Beyond the limit [.string] raises. *)
Lemma string_of_raises (room : nat) :
  forall n,
    room < string_calls n ->
    Limited.string_of recursion_error_str room n =
    Raise (Limited.recursion_error recursion_error_str).
Proof.
  induction room as [|room IH]; intros n H.
  - destruct n as [s|s|name attrs cs]; cbn in H; try lia. reflexivity.
  - destruct n as [s|s|name attrs [|c [|c' rest]]]; cbn in H; try lia.
    cbn [Limited.string_of]. apply IH. lia.
Qed.








End Agreement.

(** ** Pages with none of the metric labels *)




Section PagesWithoutLabels.

Variable check_bracketed_netloc : string -> option string.
Variable nfkc_adds_delimiter : string -> bool.
Variable requests_get : string -> result response.
Variable frames : nat.
Variable recursion_error_str : string.


End PagesWithoutLabels.


